(** * The labelling tool: rating store, progress and navigation

    A shallow embedding of the two variants of the labelling script,
    [src/unnamed/part_000] (module [part_000]) and [src/script.js]
    (module [script_js]).  The functions that are textually the same in
    both files ([sanitizeItem], [makeKey], [getFormValues], [saveState],
    [updateProgress]) are embedded once, in module [Common].

    Conventions of the embedding.
    - JSON data are values of type [JS.value]; [undefined] is the absence
      of a value ([None]).  A JS object is a finite map from its own
      property names to values ([gmap string value]); the enumeration
      order of properties is not modelled.  The properties the script
      reads by name are not inherited ones, and every key of the rating
      store contains a bar.  The store holds the records the script
      wrote, which are objects.
    - Numbers that are printed into keys (ids, the cursor) are integers
      in the exactly representable range and carried as [Z]; the
      percentage, the only place where the script divides, is computed in
      IEEE binary64 ([SpecFloat]).
    - Strings are sequences of code units below 256.
    - The module-level variables [dataset], [index], [state], the durable
      storage entry and the parts of the page the script reads and writes
      form the record [Env], threaded through every function.  Writing
      the durable entry succeeds.
    - A function that can raise (reading a property of [undefined])
      returns a [completion].
    - What the page does on [form.reset()] and on
      [querySelector(...).checked = true] depends on markup that is not
      part of the script; it is the interface [Page].
    - The clock ([melbourneNowISO()], [new Date().toISOString()]) is an
      argument [now] of the functions that read it. *)

From Stdlib Require Import ZArith String Ascii SpecFloat Lia.
From stdpp Require Import gmap strings list fin_maps pretty.

#[local] Set Warnings "-register-all".

(** ** JavaScript values and the primitive operations the script uses *)

Module JS.

Inductive value : Type :=
| Null
| Bool (b : bool)
| Num (z : Z)
| Str (s : string)
| Arr (xs : list value)
| Obj (o : gmap string value).

(** A plain object: own enumerable properties. *)
Abbreviation object := (gmap string value).

(** [typeof v], with [None] for [undefined]. *)
Definition typeof (v : option value) : string :=
  match v with
  | None => "undefined"
  | Some Null => "object"
  | Some (Bool _) => "boolean"
  | Some (Num _) => "number"
  | Some (Str _) => "string"
  | Some (Arr _) => "object"
  | Some (Obj _) => "object"
  end.

(** ToBoolean. *)
Definition truthy (v : option value) : bool :=
  match v with
  | None => false
  | Some Null => false
  | Some (Bool b) => b
  | Some (Num z) => negb (z =? 0)%Z
  | Some (Str s) => negb (String.eqb s "")
  | Some (Arr _) => true
  | Some (Obj _) => true
  end.

(** [v ?? d]. *)
Definition nullish (v : option value) (d : value) : value :=
  match v with
  | None => d
  | Some Null => d
  | Some x => x
  end.

(** [a || b]. *)
Definition or_else (a : option value) (b : value) : value :=
  match a with
  | Some v => if truthy a then v else b
  | None => b
  end.

(** [s || null] for a string [s]. *)
Definition str_or_null (s : string) : value :=
  if String.eqb s "" then Null else Str s.

(** ToString, as applied by a template literal.  An array prints its
    elements joined by commas, [null] elements as the empty string.  A
    number prints all its digits, which is what the script prints for
    the integers it holds exactly, those strictly between -2^53 and
    2^53; [Num z] stands for a number of the script only in that
    range. *)
Fixpoint ToString (v : value) : string :=
  match v with
  | Null => "null"
  | Bool true => "true"
  | Bool false => "false"
  | Num z => pretty z
  | Str s => s
  | Arr xs =>
      String.concat ","
        (List.map (fun x => match x with Null => "" | _ => ToString x end) xs)
  | Obj _ => "[object Object]"
  end.

(** [a === b] where [b] is a string or [null] (a primitive): values of
    different types are never equal, objects are never equal to a
    primitive. *)
Definition strict_eq_prim (a : option value) (b : value) : bool :=
  match a, b with
  | Some Null, Null => true
  | Some (Str s), Str t => String.eqb s t
  | Some (Bool x), Bool y => Bool.eqb x y
  | Some (Num x), Num y => (x =? y)%Z
  | _, _ => false
  end.

(** [{...v}]: the own enumerable properties of [v].  A string spreads
    into its code units and an array into its elements, both under
    decimal index keys; other primitives have none. *)
Definition spread (v : value) : object :=
  match v with
  | Obj o => o
  | Arr xs => list_to_map (imap (fun i x => (pretty i, x)) xs)
  | Str s =>
      list_to_map
        (imap (fun i c => (pretty i, Str (String c EmptyString)))
              (list_ascii_of_string s))
  | Null | Bool _ | Num _ => ∅
  end.

(** White space and line terminators among the code units below 256:
    TAB, LF, VT, FF, CR, SP and NBSP. *)
Definition is_white_space (c : ascii) : bool :=
  let n := nat_of_ascii c in
  ((9 <=? n) && (n <=? 13)) || (n =? 32) || (n =? 160).

Fixpoint trim_start (s : string) : string :=
  match s with
  | EmptyString => EmptyString
  | String c s' => if is_white_space c then trim_start s' else s
  end.

(** Drops the white space at the end: a character is kept when it is not
    white space or when something is kept after it. *)
Fixpoint trim_end (s : string) : string :=
  match s with
  | EmptyString => EmptyString
  | String c s' =>
      match trim_end s' with
      | EmptyString => if is_white_space c then EmptyString else String c EmptyString
      | t => String c t
      end
  end.

(** [s.trim()]. *)
Definition trim (s : string) : string := trim_end (trim_start s).

(** [/[23]$/.test(s)]: the last code unit of [s] is [2] or [3]. *)
Fixpoint ends_in_2_or_3 (s : string) : bool :=
  match s with
  | EmptyString => false
  | String c EmptyString => (Ascii.eqb c "2") || (Ascii.eqb c "3")
  | String _ s' => ends_in_2_or_3 s'
  end.

(** *** Numbers as IEEE binary64 *)

Definition prec : Z := 53.
Definition emax : Z := 1024.

(** The double nearest to an integer (the integer itself below 2^53). *)
Definition of_Z (z : Z) : spec_float := binary_normalize prec emax z 0 false.

Definition fdiv : spec_float -> spec_float -> spec_float := SFdiv prec emax.
Definition fmul : spec_float -> spec_float -> spec_float := SFmul prec emax.

(** [Math.round]: the integral number closest to [x], the one nearer to
    +infinity on a tie; [NaN], the infinities and the zeros are returned
    as they are, and a result of zero keeps the sign of [x]. *)
Definition Math_round (x : spec_float) : spec_float :=
  match x with
  | S754_finite s m e =>
      if (0 <=? e)%Z then x
      else
        let num := if s then Z.neg m else Z.pos m in
        let n := ((2 * num + 2 ^ (- e)) / 2 ^ (- e + 1))%Z in
        if (n =? 0)%Z then S754_zero s else of_Z n
  | _ => x
  end.

End JS.

(** ** More of the language: text rewriting, parsing, number arithmetic *)

Module Builtins.
Import JS.

(** A word character of a regular expression: [[A-Za-z0-9_]]. *)
Definition is_word (c : ascii) : bool :=
  let n := nat_of_ascii c in
  ((48 <=? n) && (n <=? 57)) || ((65 <=? n) && (n <=? 90)) ||
  ((97 <=? n) && (n <=? 122)) || (n =? 95).

(** Whether no word character starts [s]: the end of the text, or a
    character that is not a word character. *)
Definition no_word_ahead (s : string) : bool :=
  match s with
  | EmptyString => true
  | String c _ => negb (is_word c)
  end.

(** [text.replace(/\bNaN\b/g, "null")], scanning from the left;
    [prev_word] tells whether the character before the scanning position
    is a word character.  A match is the three characters [NaN] with no
    word character before and none after; the scan goes on behind it. *)
Fixpoint replace_NaN_from (prev_word : bool) (s : string) : string :=
  match s with
  | EmptyString => EmptyString
  | String c s1 =>
      match s1 with
      | String c2 (String c3 rest) =>
          if negb prev_word && Ascii.eqb c "N" && Ascii.eqb c2 "a" &&
             Ascii.eqb c3 "N" && no_word_ahead rest
          then "null" +:+ replace_NaN_from true rest
          else String c (replace_NaN_from (is_word c) s1)
      | _ => String c (replace_NaN_from (is_word c) s1)
      end
  end.

Definition replace_NaN (text : string) : string := replace_NaN_from false text.

(** [JSON.parse]: [None] when it raises. *)
Class Json : Type := {
  JSON_parse : string -> option value;
}.

Definition fadd : spec_float -> spec_float -> spec_float := SFadd prec emax.
Definition fsub : spec_float -> spec_float -> spec_float := SFsub prec emax.

(** The integer a number is, when it is one. *)
Definition integer_of (x : spec_float) : option Z :=
  match x with
  | S754_zero _ => Some 0%Z
  | S754_finite s m e =>
      if (0 <=? e)%Z then Some ((if s then Z.neg m else Z.pos m) * 2 ^ e)%Z
      else if (Z.pos m mod 2 ^ (- e) =? 0)%Z
      then Some ((if s then Z.neg m else Z.pos m) / 2 ^ (- e))%Z
      else None
  | _ => None
  end.

End Builtins.

(** ** What the two variants of the script share *)

Module Common.
Import JS.

(** *** Exceptions *)

Inductive Error : Type := TypeError.

Inductive completion (A : Type) : Type :=
| Normal (a : A)
| Throw (e : Error).
Arguments Normal {A} a.
Arguments Throw {A} e.

#[global] Instance completion_ret : MRet completion := fun A a => Normal a.
#[global] Instance completion_bind : MBind completion := fun A B k c =>
  match c with
  | Normal a => k a
  | Throw e => Throw e
  end.

(** *** The page and the script's variables *)

(** The rating form as the script reads it: the [value] of the three
    radio groups (the empty string when no button is checked) and the
    four check boxes, [None] for an element the page does not have and
    [Some c] for one whose [checked] is [c]. *)
Record Form : Type := {
  form_category : string;
  form_valence : string;
  form_subcategory : string;
  flagCheckbox : option bool;
  tooShortCheckbox : option bool;
  promotionalCheckbox : option bool;
  engagementCheckbox : option bool;
}.

(** What the browser does to the form; it depends on the markup. *)
Class Page : Type := {
  (** [elements.ratingsForm.reset()] *)
  form_reset : Form -> Form;
  (** [el = ratingsForm.querySelector('input[name=..][value=..]');
       if (el) el.checked = true] *)
  check_radio : string -> value -> Form -> Form;
}.

(** The object [state]. *)
Record state_t : Type := {
  ratingsById : gmap string object;
  raterId : string;
}.

(** The variables of the script and the page elements it writes.
    [localStorage] is the entry under [STORAGE_KEY], held as the document
    it encodes ([None] when the key is absent); [progressText] is the
    [textContent] of that element and [progressBar] the number
    interpolated into the bar's width. *)
Record Env : Type := {
  dataset : list object;
  index : Z;
  state : state_t;
  localStorage : option state_t;
  form : Form;
  progressText : string;
  progressBar : spec_float;
}.

Definition set_dataset (d : list object) (w : Env) : Env :=
  {| dataset := d; index := index w; state := state w;
     localStorage := localStorage w; form := form w;
     progressText := progressText w; progressBar := progressBar w |}.

Definition set_index (i : Z) (w : Env) : Env :=
  {| dataset := dataset w; index := i; state := state w;
     localStorage := localStorage w; form := form w;
     progressText := progressText w; progressBar := progressBar w |}.

Definition set_state (s : state_t) (w : Env) : Env :=
  {| dataset := dataset w; index := index w; state := s;
     localStorage := localStorage w; form := form w;
     progressText := progressText w; progressBar := progressBar w |}.

Definition set_localStorage (l : option state_t) (w : Env) : Env :=
  {| dataset := dataset w; index := index w; state := state w;
     localStorage := l; form := form w;
     progressText := progressText w; progressBar := progressBar w |}.

Definition set_form (f : Form) (w : Env) : Env :=
  {| dataset := dataset w; index := index w; state := state w;
     localStorage := localStorage w; form := f;
     progressText := progressText w; progressBar := progressBar w |}.

Definition set_progress (t : string) (p : spec_float) (w : Env) : Env :=
  {| dataset := dataset w; index := index w; state := state w;
     localStorage := localStorage w; form := form w;
     progressText := t; progressBar := p |}.

(** [state.ratingsById[key] = r] *)
Definition set_rating (key : string) (r : object) (w : Env) : Env :=
  set_state {| ratingsById := <[key := r]> (ratingsById (state w));
               raterId := raterId (state w) |} w.

(** [state.raterId = id] *)
Definition set_raterId (id : string) (w : Env) : Env :=
  set_state {| ratingsById := ratingsById (state w); raterId := id |} w.

(** [dataset[i]] for an integral [i]: [undefined] out of range. *)
Definition dataset_at (d : list object) (i : Z) : option object :=
  if (0 <=? i)%Z then d !! Z.to_nat i else None.

(** *** saveState *)

Definition saveState (w : Env) : Env := set_localStorage (Some (state w)) w.

(** *** sanitizeItem *)

Definition sanitizeItem (item : value) : object :=
  let clean := spread item in
  let clean :=
    if negb (String.eqb (typeof (clean !! "transcription")) "string")
    then <["transcription" := Null]> clean else clean in
  let clean :=
    if negb (String.eqb (typeof (clean !! "content")) "string")
    then <["content" := Str ""]> clean else clean in
  clean.

(** *** makeKey

    [index] is the script's cursor, read when the key is made. *)
Definition makeKey (index : Z) (item : object) : string :=
  ToString (nullish (item !! "id") (Num index)) +:+ "|" +:+
  ToString (nullish (item !! "uid") (Str "")).

(** An element read from the dataset and then used as an object:
    [item.id] raises when the index was out of range and [item] is
    [undefined]. *)
Definition item_of (item : option object) : completion object :=
  match item with
  | Some it => Normal it
  | None => Throw TypeError
  end.

(** *** getFormValues *)

Record FormValues : Type := {
  category : string;
  valence : string;
  subcategory : string;
  needsSub : bool;
}.

Definition getFormValues (f : Form) : FormValues :=
  let category := form_category f in
  let valence := form_valence f in
  let needsSub := ends_in_2_or_3 category in
  let subcategory := if needsSub then form_subcategory f else "" in
  {| category := category; valence := valence;
     subcategory := subcategory; needsSub := needsSub |}.

(** *** updateProgress *)

(** [r && r.isComplete], as a condition. *)
Definition counts_as_done (r : option object) : bool :=
  match r with
  | None => false
  | Some o => truthy (o !! "isComplete")
  end.

(** The loop [for (let i = 0; i < dataset.length; i++)], started at [i]
    with [n] iterations left. *)
Fixpoint progress_loop (w : Env) (n : nat) (i : nat) (done : nat)
  : completion nat :=
  match n with
  | O => Normal done
  | S n' =>
      item ← item_of (dataset w !! i);
      let key := makeKey (index w) item in
      let r := ratingsById (state w) !! key in
      let done := if counts_as_done r then S done else done in
      progress_loop w n' (S i) done
  end.

(** Whether the loop counts the item [item], with the cursor where it
    is in [w]. *)
Definition counted (w : Env) (item : object) : bool :=
  counts_as_done (ratingsById (state w) !! makeKey (index w) item).

(** The three numbers [updateProgress] computes. *)
Record Progress : Type := {
  done : nat;
  total : nat;
  pct : spec_float;
}.

Definition percent (done total : nat) : spec_float :=
  if Nat.eqb total 0 then of_Z 0
  else Math_round (fmul (fdiv (of_Z (Z.of_nat done)) (of_Z (Z.of_nat total)))
                        (of_Z 100)).

Definition progress (w : Env) : completion Progress :=
  let total := length (dataset w) in
  done ← progress_loop w (length (dataset w)) 0 0;
  Normal {| done := done; total := total; pct := percent done total |}.

(** Both files; [part_000] also recolours the page from [pct], which
    touches nothing modelled here. *)
Definition updateProgress (w : Env) : completion Env :=
  p ← progress w;
  Normal (set_progress (pretty (done p) +:+ "/" +:+ pretty (total p) +:+ " labelled")
                       (pct p) w).

(** *** Results of the strict save *)

Record result : Type := {
  ok : bool;
  message : option string;
}.

(** *** The export payload *)

Record Payload : Type := {
  payload_raterId : value;
  createdAt : string;
  datasetSize : nat;
  ratings : list object;
}.

(** [Object.values(o)], in the order of the map's enumeration. *)
Definition Object_values (o : gmap string object) : list object :=
  (map_to_list o).*2.

(** [Object.keys(o)]. *)
Definition Object_keys (o : gmap string object) : list string :=
  (map_to_list o).*1.

(** [if (c) c.checked = b] for a check box [c]. *)
Definition set_checked (b : bool) (c : option bool) : option bool :=
  match c with
  | Some _ => Some b
  | None => None
  end.

(** [c ? !!c.checked : false] and [c && c.checked] as a condition. *)
Definition is_checked (c : option bool) : bool :=
  match c with
  | Some b => b
  | None => false
  end.

End Common.

(** ** [src/unnamed/part_000] *)

Module part_000.
Import JS Common.

Section script.
Context {dom : Page}.

(** *** propagateRaterIdAcrossRatings *)

(** One turn of the loop over [Object.keys(state.ratingsById)].  A stored
    record is an object and hence truthy, so [r &&] only guards the
    lookup. *)
Definition propagate_step (current : value) (key : string)
    (m : gmap string object) : gmap string object :=
  match m !! key with
  | Some r =>
      if negb (strict_eq_prim (r !! "raterId") current)
      then <[key := <["raterId" := current]> r]> m
      else m
  | None => m
  end.

Definition propagateRaterIdAcrossRatings (w : Env) : Env :=
  let current := str_or_null (raterId (state w)) in
  let m := ratingsById (state w) in
  set_state {| ratingsById := foldl (fun m key => propagate_step current key m)
                                    m (Object_keys m);
               raterId := raterId (state w) |} w.

(** *** clearForm, applyToForm, render *)

Definition clearForm (f : Form) : Form :=
  let f := form_reset f in
  {| form_category := form_category f;
     form_valence := form_valence f;
     form_subcategory := form_subcategory f;
     flagCheckbox := flagCheckbox f;
     tooShortCheckbox := set_checked false (tooShortCheckbox f);
     promotionalCheckbox := set_checked false (promotionalCheckbox f);
     engagementCheckbox := set_checked false (engagementCheckbox f) |}.

(** [toggleSubcategory] only shows or hides the subcategory group. *)
Definition applyToForm (values : object) (f : Form) : Form :=
  let f := clearForm f in
  let f := match values !! "category" with
           | Some v => if truthy (Some v) then check_radio "category" v f else f
           | None => f
           end in
  let f := match values !! "valence" with
           | Some v => if truthy (Some v) then check_radio "valence" v f else f
           | None => f
           end in
  let f := match values !! "subcategory" with
           | Some v => if truthy (Some v) then check_radio "subcategory" v f else f
           | None => f
           end in
  f.

(** [!!(saved && saved.p === true)] *)
Definition saved_flag (saved : option object) (p : string) : bool :=
  match saved with
  | Some o => strict_eq_prim (o !! p) (Bool true)
  | None => false
  end.

Definition render (w : Env) : completion Env :=
  let hasData := negb (Nat.eqb (length (dataset w)) 0) in
  if negb hasData then Normal (set_form (clearForm (form w)) w)
  else
    item ← item_of (dataset_at (dataset w) (index w));
    let key := makeKey (index w) item in
    let saved := ratingsById (state w) !! key in
    let f := applyToForm (default ∅ saved) (form w) in
    let f :=
      {| form_category := form_category f;
         form_valence := form_valence f;
         form_subcategory := form_subcategory f;
         flagCheckbox := set_checked (saved_flag saved "flagged") (flagCheckbox f);
         tooShortCheckbox := set_checked (saved_flag saved "tooShort") (tooShortCheckbox f);
         promotionalCheckbox :=
           set_checked (saved_flag saved "promotional") (promotionalCheckbox f);
         engagementCheckbox :=
           set_checked (saved_flag saved "engagement") (engagementCheckbox f) |} in
    Normal (set_form f w).

(** *** setDataset *)

Definition setDataset (items : list value) (w : Env) : completion Env :=
  let w := set_dataset (List.map sanitizeItem items) w in
  let w := set_index 0 w in
  w ← render w;
  updateProgress w.

(** *** validate *)

Definition validate (f : Form) (values : FormValues) : result :=
  if is_checked (tooShortCheckbox f) then {| ok := true; message := None |}
  else if String.eqb (category values) ""
  then {| ok := false; message := Some "Please select a Category." |}
  else if String.eqb (valence values) ""
  then {| ok := false; message := Some "Please select a Valence." |}
  else if needsSub values && String.eqb (subcategory values) ""
  then {| ok := false; message := Some "Please select a Subcategory." |}
  else {| ok := true; message := None |}.

(** *** saveCurrent *)

(** The object literal stored by [saveCurrent]. *)
Definition strict_record (now : string) (w : Env) (item : object)
    (values : FormValues) : object :=
  let isTooShort := is_checked (tooShortCheckbox (form w)) in
  list_to_map [
    ("itemIndex", Num (index w));
    ("id", nullish (item !! "id") Null);
    ("uid", nullish (item !! "uid") Null);
    ("category", if isTooShort then Null else Str (category values));
    ("valence", if isTooShort then Null else Str (valence values));
    ("subcategory",
       if isTooShort then Null
       else if needsSub values then Str (subcategory values) else Null);
    ("flagged", Bool (is_checked (flagCheckbox (form w))));
    ("tooShort", Bool (is_checked (tooShortCheckbox (form w))));
    ("promotional", Bool (is_checked (promotionalCheckbox (form w))));
    ("engagement", Bool (is_checked (engagementCheckbox (form w))));
    ("raterId", str_or_null (raterId (state w)));
    ("timestamp", Str now)
  ].

Definition saveCurrent (now : string) (w : Env) : completion (Env * result) :=
  if Nat.eqb (length (dataset w)) 0
  then Normal (w, {| ok := false; message := Some "No dataset" |})
  else
    item ← item_of (dataset_at (dataset w) (index w));
    let key := makeKey (index w) item in
    let values := getFormValues (form w) in
    let v := validate (form w) values in
    if negb (ok v) then Normal (w, v)
    else
      let w := set_rating key (strict_record now w item values) w in
      let w := saveState w in
      w ← updateProgress w;
      Normal (w, {| ok := true; message := None |}).

(** *** savePartialProgress *)

(** The object literal stored by [savePartialProgress]. *)
Definition partial_record (now : string) (w : Env) (item : object)
    (values : FormValues) : object :=
  let isComplete :=
    (negb (String.eqb (category values) "") &&
     negb (String.eqb (valence values) "") &&
     (negb (needsSub values) || negb (String.eqb (subcategory values) "")))
    || is_checked (tooShortCheckbox (form w)) in
  let isTooShort := is_checked (tooShortCheckbox (form w)) in
  list_to_map [
    ("itemIndex", Num (index w));
    ("id", nullish (item !! "id") Null);
    ("uid", nullish (item !! "uid") Null);
    ("category", if isTooShort then Null else str_or_null (category values));
    ("valence", if isTooShort then Null else str_or_null (valence values));
    ("subcategory",
       if isTooShort then Null
       else if needsSub values then str_or_null (subcategory values) else Null);
    ("flagged", Bool (is_checked (flagCheckbox (form w))));
    ("tooShort", Bool (is_checked (tooShortCheckbox (form w))));
    ("promotional", Bool (is_checked (promotionalCheckbox (form w))));
    ("engagement", Bool (is_checked (engagementCheckbox (form w))));
    ("isComplete", Bool isComplete);
    ("raterId", str_or_null (raterId (state w)));
    ("timestamp", Str now)
  ].

Definition savePartialProgress (now : string) (w : Env) : completion Env :=
  if Nat.eqb (length (dataset w)) 0 then Normal w
  else
    item ← item_of (dataset_at (dataset w) (index w));
    let key := makeKey (index w) item in
    let values := getFormValues (form w) in
    let w := set_rating key (partial_record now w item values) w in
    let w := saveState w in
    updateProgress w.

(** *** go *)

Definition go (delta : Z) (w : Env) : completion Env :=
  if Nat.eqb (length (dataset w)) 0 then Normal w
  else
    let next := Z.min (Z.max (index w + delta) 0)
                      (Z.of_nat (length (dataset w)) - 1) in
    if (next =? index w)%Z then Normal w
    else render (set_index next w).

(** *** exportJson *)

(** The payload that is serialised into the downloaded file. *)
Definition exportJson (now : string) (w : Env) : Payload :=
  let ratings :=
    (fun r : object =>
       <["raterId" :=
           if negb (String.eqb (raterId (state w)) "") then Str (raterId (state w))
           else or_else (r !! "raterId") Null]> r)
    <$> Object_values (ratingsById (state w)) in
  {| payload_raterId := str_or_null (raterId (state w));
     createdAt := now;
     datasetSize := length (dataset w);
     ratings := ratings |}.

(** *** The handler of the rater id field's [input] event

    [value] is what the field holds when the event fires. *)
Definition raterIdInput_input (value : string) (w : Env) : Env :=
  let w := set_raterId (trim value) w in
  let w := propagateRaterIdAcrossRatings w in
  saveState w.

(** *** The handler of the jump button

    [val] is [parseInt(jumpInput.value, 10)], [None] when it is not a
    finite number; the second component tells whether the alert was
    shown. *)
Definition jumpBtn_click (now : string) (val : option Z) (w : Env)
  : completion (Env * bool) :=
  match val with
  | None => Normal (w, false)
  | Some val =>
      let target := (val - 1)%Z in
      if (0 <=? target)%Z && (target <? Z.of_nat (length (dataset w)))%Z
      then
        w ← savePartialProgress now w;
        w ← render (set_index target w);
        Normal (w, false)
      else Normal (w, true)
  end.

(** *** loadState and the start of the script

    The durable entry, when there is one, holds both fields, so the
    defaults [|| {}] and [|| ""] do not apply. *)
Definition loadState (w : Env) : Env :=
  match localStorage w with
  | Some parsed => set_state parsed w
  | None => w
  end.

(** The statements at the end of the script ("Init"). *)
Definition init (w : Env) : completion Env :=
  let w := loadState w in
  let w := propagateRaterIdAcrossRatings w in
  let w := saveState w in
  setDataset [] w.

(** *** The other handlers

    A handler runs after the browser has updated the form; that update
    is the event [Edit]. *)
Inductive event : Type :=
| Edit (f : Form)
| prevBtn_click (now : string)
| nextBtn_click (now : string)
| clearBtn_click (now : string)
| jump (now : string) (val : option Z)
| change (now : string)
| tooShortCheckbox_change (now : string)
| raterIdInput (value : string)
| loaded (items : list value).

(** [prevBtn_click] and [nextBtn_click] are also what the left and right
    arrow keys do; [change] is the handler of the rating form and of the
    flag, promotional and engagement check boxes; [loaded] is the end of
    both ways of loading a dataset, once the text has parsed to an
    array. *)
Definition handle (e : event) (w : Env) : completion Env :=
  match e with
  | Edit f => Normal (set_form f w)
  | prevBtn_click now => w ← savePartialProgress now w; go (-1) w
  | nextBtn_click now => w ← savePartialProgress now w; go 1 w
  | clearBtn_click now =>
      savePartialProgress now (set_form (clearForm (form w)) w)
  | jump now val => r ← jumpBtn_click now val w; Normal r.1
  | change now => savePartialProgress now w
  | tooShortCheckbox_change now =>
      let w := if is_checked (tooShortCheckbox (form w))
               then set_form (form_reset (form w)) w else w in
      savePartialProgress now w
  | raterIdInput value => Normal (raterIdInput_input value w)
  | loaded items => setDataset items w
  end.

(** *** updateBackgroundColor

    The three channels of the colour the function blends and then writes
    into the page's background. *)
Definition baseColor : list spec_float := [of_Z 15; of_Z 18; of_Z 22].
Definition pinkColor : list spec_float := [of_Z 171; of_Z 0; of_Z 120].

Definition blendedColor (progressPercent : spec_float) : list spec_float :=
  let pinkIntensity := fdiv progressPercent (of_Z 100) in
  imap (fun i base =>
          Math_round
            (Builtins.fadd base
               (fmul (Builtins.fsub (default S754_nan (pinkColor !! i)) base)
                     pinkIntensity)))
       baseColor.

(** *** Loading a dataset

    What the handlers of the sample button and of the file input do once
    they hold the text: [text] is the response or the file's content.
    The second component tells whether the alert was shown.  The [catch]
    clause also spans [setDataset], which does not raise. *)
Context {json : Builtins.Json}.

Definition load_text (text : string) (w : Env) : completion (Env * bool) :=
  let fixed := Builtins.replace_NaN text in
  match Builtins.JSON_parse fixed with
  | None => Normal (w, true)
  | Some (Arr items) => w ← setDataset items w; Normal (w, false)
  | Some _ => Normal (w, true)
  end.

End script.
End part_000.

(** ** [src/script.js] *)

Module script_js.
Import JS Common.

Section script.
Context {dom : Page}.

(** *** clearForm, applyToForm, render *)

Definition clearForm (f : Form) : Form := form_reset f.

Definition applyToForm (values : object) (f : Form) : Form :=
  let f := clearForm f in
  let f := match values !! "category" with
           | Some v => if truthy (Some v) then check_radio "category" v f else f
           | None => f
           end in
  let f := match values !! "valence" with
           | Some v => if truthy (Some v) then check_radio "valence" v f else f
           | None => f
           end in
  let f := match values !! "subcategory" with
           | Some v => if truthy (Some v) then check_radio "subcategory" v f else f
           | None => f
           end in
  f.

Definition render (w : Env) : completion Env :=
  let hasData := negb (Nat.eqb (length (dataset w)) 0) in
  if negb hasData then Normal (set_form (clearForm (form w)) w)
  else
    item ← item_of (dataset_at (dataset w) (index w));
    let key := makeKey (index w) item in
    let saved := ratingsById (state w) !! key in
    let f := applyToForm (default ∅ saved) (form w) in
    let flagged := match saved with
                   | Some o => strict_eq_prim (o !! "flagged") (Bool true)
                   | None => false
                   end in
    let f :=
      {| form_category := form_category f;
         form_valence := form_valence f;
         form_subcategory := form_subcategory f;
         flagCheckbox := set_checked flagged (flagCheckbox f);
         tooShortCheckbox := tooShortCheckbox f;
         promotionalCheckbox := promotionalCheckbox f;
         engagementCheckbox := engagementCheckbox f |} in
    Normal (set_form f w).

(** *** setDataset *)

Definition setDataset (items : list value) (w : Env) : completion Env :=
  let w := set_dataset (List.map sanitizeItem items) w in
  let w := set_index 0 w in
  w ← render w;
  updateProgress w.

(** *** validate *)

Definition validate (values : FormValues) : result :=
  if String.eqb (category values) ""
  then {| ok := false; message := Some "Please select a Category." |}
  else if String.eqb (valence values) ""
  then {| ok := false; message := Some "Please select a Valence." |}
  else if needsSub values && String.eqb (subcategory values) ""
  then {| ok := false; message := Some "Please select a Subcategory." |}
  else {| ok := true; message := None |}.

(** *** saveCurrent *)

Definition strict_record (now : string) (w : Env) (item : object)
    (values : FormValues) : object :=
  list_to_map [
    ("itemIndex", Num (index w));
    ("id", nullish (item !! "id") Null);
    ("uid", nullish (item !! "uid") Null);
    ("category", Str (category values));
    ("valence", Str (valence values));
    ("subcategory", if needsSub values then Str (subcategory values) else Null);
    ("raterId", str_or_null (raterId (state w)));
    ("timestamp", Str now)
  ].

Definition saveCurrent (now : string) (w : Env) : completion (Env * result) :=
  if Nat.eqb (length (dataset w)) 0
  then Normal (w, {| ok := false; message := Some "No dataset" |})
  else
    item ← item_of (dataset_at (dataset w) (index w));
    let key := makeKey (index w) item in
    let values := getFormValues (form w) in
    let v := validate values in
    if negb (ok v) then Normal (w, v)
    else
      let w := set_rating key (strict_record now w item values) w in
      let w := saveState w in
      w ← updateProgress w;
      Normal (w, {| ok := true; message := None |}).

(** *** savePartialProgress *)

Definition partial_record (now : string) (w : Env) (item : object)
    (values : FormValues) : object :=
  let isComplete :=
    negb (String.eqb (category values) "") &&
    negb (String.eqb (valence values) "") &&
    (negb (needsSub values) || negb (String.eqb (subcategory values) "")) in
  list_to_map [
    ("itemIndex", Num (index w));
    ("id", nullish (item !! "id") Null);
    ("uid", nullish (item !! "uid") Null);
    ("category", str_or_null (category values));
    ("valence", str_or_null (valence values));
    ("subcategory",
       if needsSub values then str_or_null (subcategory values) else Null);
    ("flagged", Bool (is_checked (flagCheckbox (form w))));
    ("isComplete", Bool isComplete);
    ("raterId", str_or_null (raterId (state w)));
    ("timestamp", Str now)
  ].

Definition savePartialProgress (now : string) (w : Env) : completion Env :=
  if Nat.eqb (length (dataset w)) 0 then Normal w
  else
    item ← item_of (dataset_at (dataset w) (index w));
    let key := makeKey (index w) item in
    let values := getFormValues (form w) in
    let w := set_rating key (partial_record now w item values) w in
    let w := saveState w in
    updateProgress w.

(** *** go *)

Definition go (delta : Z) (w : Env) : completion Env :=
  if Nat.eqb (length (dataset w)) 0 then Normal w
  else
    let next := Z.min (Z.max (index w + delta) 0)
                      (Z.of_nat (length (dataset w)) - 1) in
    if (next =? index w)%Z then Normal w
    else render (set_index next w).

(** *** exportJson *)

Definition exportJson (now : string) (w : Env) : Payload :=
  let ratings := Object_values (ratingsById (state w)) in
  {| payload_raterId := str_or_null (raterId (state w));
     createdAt := now;
     datasetSize := length (dataset w);
     ratings := ratings |}.

(** *** The handler of the rater id field's [input] event *)

Definition raterIdInput_input (value : string) (w : Env) : Env :=
  let w := set_raterId (trim value) w in
  saveState w.

(** *** The handler of the jump button *)

Definition jumpBtn_click (now : string) (val : option Z) (w : Env)
  : completion (Env * bool) :=
  match val with
  | None => Normal (w, false)
  | Some val =>
      let target := (val - 1)%Z in
      if (0 <=? target)%Z && (target <? Z.of_nat (length (dataset w)))%Z
      then
        w ← savePartialProgress now w;
        w ← render (set_index target w);
        Normal (w, false)
      else Normal (w, true)
  end.

(** *** loadState and the start of the script *)

Definition loadState (w : Env) : Env :=
  match localStorage w with
  | Some parsed => set_state parsed w
  | None => w
  end.

Definition init (w : Env) : completion Env :=
  let w := loadState w in
  setDataset [] w.

(** *** The other handlers *)

Inductive event : Type :=
| Edit (f : Form)
| prevBtn_click (now : string)
| nextBtn_click (now : string)
| clearBtn_click (now : string)
| jump (now : string) (val : option Z)
| change (now : string)
| raterIdInput (value : string)
| loaded (items : list value).

(** [change] is the handler of the rating form and of the flag check
    box. *)
Definition handle (e : event) (w : Env) : completion Env :=
  match e with
  | Edit f => Normal (set_form f w)
  | prevBtn_click now => w ← savePartialProgress now w; go (-1) w
  | nextBtn_click now => w ← savePartialProgress now w; go 1 w
  | clearBtn_click now =>
      savePartialProgress now (set_form (clearForm (form w)) w)
  | jump now val => r ← jumpBtn_click now val w; Normal r.1
  | change now => savePartialProgress now w
  | raterIdInput value => Normal (raterIdInput_input value w)
  | loaded items => setDataset items w
  end.

(** *** Loading a dataset *)
Context {json : Builtins.Json}.

Definition load_text (text : string) (w : Env) : completion (Env * bool) :=
  let fixed := Builtins.replace_NaN text in
  match Builtins.JSON_parse fixed with
  | None => Normal (w, true)
  | Some (Arr items) => w ← setDataset items w; Normal (w, false)
  | Some _ => Normal (w, true)
  end.

End script.
End script_js.

(** ** Vocabulary of the statements *)

Module Spec.
Import JS Common.

(** [r.isComplete === true] for the record found under a key, false when
    there is none. *)
Definition isComplete_true (r : option object) : bool :=
  match r with
  | Some o => strict_eq_prim (o !! "isComplete") (Bool true)
  | None => false
  end.

(** The records of a store carry [isComplete] as a boolean or not at
    all, which is how the two save functions write them. *)
Definition isComplete_boolean (m : gmap string object) : Prop :=
  forall k r, m !! k = Some r ->
    r !! "isComplete" = None \/ exists b, r !! "isComplete" = Some (Bool b).

(** The cursor points at an item of the dataset. *)
Definition cursor_in_range (w : Env) : Prop :=
  (0 <= index w < Z.of_nat (length (dataset w)))%Z.

(** The cursor invariant of the script: no dataset, or a cursor that
    points into it. *)
Definition cursor_ok (w : Env) : Prop :=
  dataset w = [] \/ cursor_in_range w.

(** A required field is missing from the form. *)
Definition missing_required (f : Form) : Prop :=
  form_category f = "" \/
  form_valence f = "" \/
  (ends_in_2_or_3 (form_category f) = true /\ form_subcategory f = "").

(** What a successful strict save from [w] to [w'] leaves behind: the
    record stored for the item under the cursor has no [isComplete]
    property, the progress loop does not count the item, and so the
    number of items done stays below the total. *)
Definition stored_without_isComplete (w w' : Env) : Prop :=
  exists item rec,
    dataset_at (dataset w) (index w) = Some item /\
    item ∈ dataset w' /\
    ratingsById (state w') !! makeKey (index w) item = Some rec /\
    rec !! "isComplete" = None /\
    counted w' item = false /\
    exists p,
      progress w' = Normal p /\
      done p = length (List.filter (counted w') (dataset w')) /\
      done p < total p.

(** [state.raterId || null], the rater id as records carry it. *)
Definition current (w : Env) : value := str_or_null (raterId (state w)).

(** [r.raterId = current] for a stored record. *)
Definition stamp (current : value) (r : object) : object :=
  <["raterId" := current]> r.

(** Every record carries the session's rater id as its [raterId], as the
    specification words the effect of setting the rater id. *)
Definition raterId_overwritten (w : Env) : Prop :=
  forall k r, ratingsById (state w) !! k = Some r ->
    r !! "raterId" = Some (Str (raterId (state w))).

(** Every record carries the rater id of the session, [null] for none. *)
Definition carries_current (w : Env) : Prop :=
  forall k r, ratingsById (state w) !! k = Some r ->
    r !! "raterId" = Some (current w).

(** What [part_000] maintains between events. *)
Definition invariant (w : Env) : Prop :=
  cursor_ok w /\ isComplete_boolean (ratingsById (state w)) /\ carries_current w.

(** The [raterId] of a record in the export of [part_000]:
    [state.raterId || r.raterId || null]. *)
Definition exported_raterId (session : string) (r : object) : value :=
  if String.eqb session "" then or_else (r !! "raterId") Null else Str session.

(** The [raterId] of an exported record as the specification words it:
    the record's own when it has one, the session's only when it has
    none. *)
Definition claimed_raterId (session : string) (r : object) : value :=
  match r !! "raterId" with
  | None | Some Null => Str session
  | Some own => own
  end.

(** The export lists the stored records in order, each with the
    [raterId] the specification words. *)
Definition exported_as_claimed (w : Env) (p : Payload) : Prop :=
  Forall2 (fun r r' : object =>
             r' !! "raterId" = Some (claimed_raterId (raterId (state w)) r))
          (Object_values (ratingsById (state w))) (ratings p).

(** What a step of the cursor by [delta] from [w] to [w'] leaves alone,
    and how far it goes. *)
Definition stepped (delta : Z) (w w' : Env) : Prop :=
  dataset w' = dataset w /\ state w' = state w /\
  localStorage w' = localStorage w /\
  progressText w' = progressText w /\ progressBar w' = progressBar w /\
  cursor_ok w' /\
  (Z.abs (index w' - index w) <= Z.abs delta)%Z /\
  (0 <= delta -> index w <= index w')%Z /\
  (delta <= 0 -> index w' <= index w)%Z.

(** A save from [w] to [w'] that put [rec] under [key]: that record is
    there, no other key is touched, the rater id, the dataset, the cursor
    and the form are as before, and the state went to the durable
    entry. *)
Definition upserted (key : string) (rec : object) (w w' : Env) : Prop :=
  ratingsById (state w') !! key = Some rec /\
  (forall k, k <> key ->
             ratingsById (state w') !! k = ratingsById (state w) !! k) /\
  raterId (state w') = raterId (state w) /\
  dataset w' = dataset w /\ index w' = index w /\ form w' = form w /\
  localStorage w' = Some (state w').

(** The durable entry holds the state as it is in memory. *)
Definition storage_synced (w : Env) : Prop := localStorage w = Some (state w).

(** An item as the sanitizer leaves it: a string for [content], a string
    or [null] for [transcription]. *)
Definition sanitized (item : object) : Prop :=
  (exists s, item !! "content" = Some (Str s)) /\
  (item !! "transcription" = Some Null \/
   exists s, item !! "transcription" = Some (Str s)).

(** The item has an [id] that is not [null]. *)
Definition has_id (item : object) : Prop :=
  exists v, item !! "id" = Some v /\ v <> Null.

(** No bar in the text. *)
Fixpoint bar_free (s : string) : bool :=
  match s with
  | EmptyString => true
  | String c s' => negb (Ascii.eqb c "|") && bar_free s'
  end.

(** The two parts of a key: what [makeKey] prints before and after the
    bar. *)
Definition key_id (i : Z) (item : object) : string :=
  ToString (nullish (item !! "id") (Num i)).
Definition key_uid (item : object) : string :=
  ToString (nullish (item !! "uid") (Str "")).

(** The two forms have the same check boxes. *)
Definition same_boxes (f g : Form) : Prop :=
  (is_Some (flagCheckbox f) <-> is_Some (flagCheckbox g)) /\
  (is_Some (tooShortCheckbox f) <-> is_Some (tooShortCheckbox g)) /\
  (is_Some (promotionalCheckbox f) <-> is_Some (promotionalCheckbox g)) /\
  (is_Some (engagementCheckbox f) <-> is_Some (engagementCheckbox g)).

(** Resetting the form or checking a radio button neither removes nor
    adds a check box. *)
Definition page_keeps_boxes (dom : Page) : Prop :=
  (forall f, same_boxes (form_reset f) f) /\
  (forall name v f, same_boxes (check_radio name v f) f).

(** What [script.js] maintains between events. *)
Definition legacy_invariant (w : Env) : Prop :=
  cursor_ok w /\ isComplete_boolean (ratingsById (state w)).

(** The variables as the script declares them, before its last
    statements run. *)
Definition declared (w : Env) : Prop :=
  dataset w = [] /\ index w = 0%Z /\
  state w = {| ratingsById := ∅; raterId := "" |}.

(** A load of [items] from [w] to [w']: the dataset is the items
    sanitised, in order; the cursor is 0; the rating store, the rater id
    and the durable entry are as before; the progress shown is the
    progress of the new dataset against the ratings already stored. *)
Definition loaded_from (items : list value) (w w' : Env) : Prop :=
  dataset w' = List.map sanitizeItem items /\
  Forall sanitized (dataset w') /\
  index w' = 0%Z /\
  state w' = state w /\ localStorage w' = localStorage w /\
  progressText w' =
    pretty (length (List.filter (counted w') (dataset w'))) +:+ "/" +:+
    pretty (length items) +:+ " labelled".

(** The three channels of the blended colour at the integer percentage
    [p], as integers. *)
Definition channels (p : Z) : list (option Z) :=
  Builtins.integer_of <$> part_000.blendedColor (of_Z p).

Definition between (lo hi : Z) (x : option Z) : bool :=
  match x with
  | Some n => (lo <=? n)%Z && (n <=? hi)%Z
  | None => false
  end.

(** Each channel is an integer between its value in the base colour and
    its value in the pink. *)
Definition blend_in_range (p : Z) : bool :=
  match channels p with
  | [r; g; b] => between 15 171 r && between 0 18 g && between 22 120 b
  | _ => false
  end.

(** From [p] to [p + 1] red and blue do not fall and green does not
    rise. *)
Definition blend_step (p : Z) : bool :=
  match channels p, channels (p + 1) with
  | [Some r; Some g; Some b], [Some r'; Some g'; Some b'] =>
      (r <=? r')%Z && (g' <=? g)%Z && (b <=? b')%Z
  | _, _ => false
  end.

(** The text starts with a match of [/NaN\b/]. *)
Definition starts_NaN (s : string) : bool :=
  match s with
  | String c (String c2 (String c3 rest)) =>
      Ascii.eqb c "N" && Ascii.eqb c2 "a" && Ascii.eqb c3 "N" &&
      Builtins.no_word_ahead rest
  | _ => false
  end.

(** The text without its first three characters. *)
Definition behind_NaN (s : string) : string :=
  match s with
  | String _ (String _ (String _ rest)) => rest
  | _ => EmptyString
  end.

(** The text has no capital N. *)
Fixpoint without_N (s : string) : bool :=
  match s with
  | EmptyString => true
  | String c s' => negb (Ascii.eqb c "N") && without_N s'
  end.

(** The last character of the text, if any, is not a word character. *)
Fixpoint ends_without_word (s : string) : bool :=
  match s with
  | EmptyString => true
  | String c EmptyString => negb (Builtins.is_word c)
  | String _ s' => ends_without_word s'
  end.






(** [Number.isSafeInteger]: an integer the script holds exactly and
    prints with all its digits. *)
Definition safe_integer (z : Z) : Prop := (- 2 ^ 53 < z < 2 ^ 53)%Z.

End Spec.

(** ** Concrete pages, datasets and sessions used in the examples *)

Module Examples.
Import JS Common.

(** A page on which [reset] unchecks the radio buttons and a matching
    radio button exists for every stored value. *)
Definition page : Page :=
  {| form_reset := fun f =>
       {| form_category := ""; form_valence := ""; form_subcategory := "";
          flagCheckbox := flagCheckbox f;
          tooShortCheckbox := tooShortCheckbox f;
          promotionalCheckbox := promotionalCheckbox f;
          engagementCheckbox := engagementCheckbox f |};
     check_radio := fun name v f =>
       {| form_category :=
            if String.eqb name "category" then ToString v else form_category f;
          form_valence :=
            if String.eqb name "valence" then ToString v else form_valence f;
          form_subcategory :=
            if String.eqb name "subcategory" then ToString v
            else form_subcategory f;
          flagCheckbox := flagCheckbox f;
          tooShortCheckbox := tooShortCheckbox f;
          promotionalCheckbox := promotionalCheckbox f;
          engagementCheckbox := engagementCheckbox f |} |}.

Definition blank_form : Form :=
  {| form_category := ""; form_valence := ""; form_subcategory := "";
     flagCheckbox := Some false; tooShortCheckbox := Some false;
     promotionalCheckbox := Some false; engagementCheckbox := Some false |}.

(** Category 1 selected and nothing else, "too short to code" checked. *)
Definition too_short_form : Form :=
  {| form_category := "1"; form_valence := ""; form_subcategory := "";
     flagCheckbox := Some false; tooShortCheckbox := Some true;
     promotionalCheckbox := Some false; engagementCheckbox := Some false |}.

(** Category 2, valence and subcategory selected. *)
Definition complete_form : Form :=
  {| form_category := "2"; form_valence := "pos"; form_subcategory := "x";
     flagCheckbox := Some false; tooShortCheckbox := Some false;
     promotionalCheckbox := Some false; engagementCheckbox := Some false |}.

(** Category 2 and valence selected, no subcategory. *)
Definition no_subcategory_form : Form :=
  {| form_category := "2"; form_valence := "pos"; form_subcategory := "";
     flagCheckbox := Some false; tooShortCheckbox := Some false;
     promotionalCheckbox := Some false; engagementCheckbox := Some false |}.

(** The script's variables right after it is loaded with empty storage. *)
Definition fresh (f : Form) : Env :=
  {| dataset := []; index := 0;
     state := {| ratingsById := ∅; raterId := "" |};
     localStorage := None; form := f;
     progressText := "0/0 labelled"; progressBar := of_Z 0 |}.

(** [[{id:1,content:"a"},{id:2,content:"b"}]], already sanitised. *)
Definition two_items : list object :=
  [ list_to_map [("id", Num 1); ("content", Str "a"); ("transcription", Null)];
    list_to_map [("id", Num 2); ("content", Str "b"); ("transcription", Null)] ].

(** [[{uid:"a",content:"x"},{uid:"b",content:"y"}]]: items that have a
    [uid] and no [id], already sanitised. *)
Definition two_items_without_id : list object :=
  [ list_to_map [("uid", Str "a"); ("content", Str "x"); ("transcription", Null)];
    list_to_map [("uid", Str "b"); ("content", Str "y"); ("transcription", Null)] ].

Definition session (items : list object) (i : Z) (f : Form) : Env :=
  set_index i (set_dataset items (fresh f)).

(** A store with one record, whose [raterId] is [id]. *)
Definition one_record (id : value) : gmap string object :=
  {[ "1|" := list_to_map [("id", Num 1); ("isComplete", Bool true); ("raterId", id)] ]}.

Definition with_store (m : gmap string object) (rater : string) (w : Env) : Env :=
  set_state {| ratingsById := m; raterId := rater |} w.

(** What [f] reads in the environment a computation ends in. *)
Definition observe {A : Type} (c : completion Env) (f : Env -> A)
  : completion A :=
  w ← c; Normal (f w).

(** The first of [two_items] under the cursor. *)
Definition at_first (f : Form) : Env := session two_items 0 f.

Definition first_item : object :=
  list_to_map [("id", Num 1); ("content", Str "a"); ("transcription", Null)].

(** The second of [two_items_without_id]. *)
Definition item_b : object :=
  list_to_map [("uid", Str "b"); ("content", Str "y"); ("transcription", Null)].

(** Three steps on [two_items_without_id]: the second item is labelled
    in full, the rater steps back to the first item, and the form of the
    first item is autosaved untouched. *)
Definition labelled_second : completion Env :=
  part_000.savePartialProgress "T1"
    (session two_items_without_id 1 complete_form).

Definition stepped_back : completion Env :=
  w ← labelled_second; part_000.go (dom := page) (-1) w.

Definition autosaved_first : completion Env :=
  w ← stepped_back; part_000.savePartialProgress "T2" w.

(** In [script.js]: the first item is labelled before any rater id was
    typed, then the rater types "r1". *)
Definition named_after_labelling : completion Env :=
  w ← script_js.savePartialProgress "T1" (at_first complete_form);
  Normal (script_js.raterIdInput_input "r1" w).

(** The second of [two_items]. *)
Definition second_item : object :=
  list_to_map [("id", Num 2); ("content", Str "b"); ("transcription", Null)].

(** [two_items] with the first under the cursor, a store of one record
    and no rater id, after a [saveState]. *)
Definition stored_session (f : Form) : Env :=
  saveState (with_store (one_record Null) "" (at_first f)).

(** The variables as the script declares them, on a page whose durable
    entry holds the state of [stored_session]. *)
Definition reopened : Env :=
  set_localStorage (Some {| ratingsById := one_record Null; raterId := "" |})
    (fresh blank_form).

(** A parser that knows two texts. *)
Definition known_texts : Builtins.Json :=
  {| Builtins.JSON_parse := fun text =>
       if String.eqb text "[null]" then Some (Arr [Null])
       else if String.eqb text "{}" then Some (Obj ∅)
       else None |}.





End Examples.

(** ** Facts *)

Section facts.
Import JS Common Spec.
Context {dom : Page}.

(** *** Reading the dataset *)

Lemma dataset_at_in_range (d : list object) (i : Z) :
  (0 <= i < Z.of_nat (length d))%Z -> is_Some (dataset_at d i).
Proof.
  intros [Hlo Hhi]. unfold dataset_at.
  destruct (Z.leb_spec 0 i) as [_|]; [|lia].
  apply lookup_lt_is_Some_2. lia.
Qed.

Lemma dataset_at_Some (d : list object) (i : Z) (item : object) :
  dataset_at d i = Some item ->
  (0 <= i < Z.of_nat (length d))%Z /\ d !! Z.to_nat i = Some item.
Proof.
  unfold dataset_at. destruct (Z.leb_spec 0 i) as [Hlo|]; [|discriminate].
  intros Hitem. split; [|exact Hitem].
  apply lookup_lt_Some in Hitem. lia.
Qed.

Lemma dataset_at_nonempty (d : list object) (i : Z) (item : object) :
  dataset_at d i = Some item -> Nat.eqb (length d) 0 = false.
Proof.
  intros Hitem. apply dataset_at_Some in Hitem as [Hr _].
  apply Nat.eqb_neq. lia.
Qed.

(** *** Keys *)

(** An item that has an id gets the same key wherever the cursor is. *)
Lemma makeKey_with_id (i j : Z) (item : object) (v : value) :
  item !! "id" = Some v -> v <> Null -> makeKey i item = makeKey j item.
Proof.
  intros Hid Hv. unfold makeKey. rewrite Hid.
  destruct v; [contradiction|reflexivity..].
Qed.

(** An item without an id gets a key that starts with the cursor. *)
Lemma makeKey_without_id (i : Z) (item : object) :
  item !! "id" = None \/ item !! "id" = Some Null ->
  makeKey i item =
    pretty i +:+ "|" +:+ ToString (nullish (item !! "uid") (Str "")).
Proof. intros Hid. unfold makeKey. destruct Hid as [-> | ->]; reflexivity. Qed.

(** *** The progress loop *)

Lemma progress_loop_counts (w : Env) (n i d : nat) :
  i + n <= length (dataset w) ->
  progress_loop w n i d =
    Normal (d + length (List.filter (counted w) (take n (drop i (dataset w))))).
Proof.
  revert i d. induction n as [|n IH]; intros i d Hle; simpl.
  - f_equal. lia.
  - destruct (lookup_lt_is_Some_2 (dataset w) i) as [item Hitem]; [lia|].
    rewrite Hitem. simpl.
    rewrite (drop_S _ _ _ Hitem). simpl.
    rewrite IH by lia. unfold counted at 2.
    destruct (counts_as_done _); simpl; f_equal; lia.
Qed.

Lemma progress_normal (w : Env) :
  progress w =
    Normal {| done := length (List.filter (counted w) (dataset w));
              total := length (dataset w);
              pct := percent (length (List.filter (counted w) (dataset w)))
                             (length (dataset w)) |}.
Proof.
  unfold progress. rewrite progress_loop_counts by lia.
  rewrite drop_0, firstn_all. reflexivity.
Qed.

(** [updateProgress] never raises and writes only the two progress
    elements. *)
Lemma updateProgress_normal (w : Env) :
  exists t p, updateProgress w = Normal (set_progress t p w).
Proof.
  unfold updateProgress. rewrite progress_normal. simpl. eauto.
Qed.

Lemma counted_isComplete_true (w : Env) (item : object) :
  isComplete_boolean (ratingsById (state w)) ->
  counted w item = isComplete_true (ratingsById (state w) !! makeKey (index w) item).
Proof.
  intros Hb. unfold counted, counts_as_done, isComplete_true.
  destruct (ratingsById (state w) !! makeKey (index w) item) as [r|] eqn:Hr;
    [|reflexivity].
  destruct (Hb _ _ Hr) as [-> | [b ->]]; [reflexivity|].
  destruct b; reflexivity.
Qed.







(** *** The strict save of [part_000] *)

Lemma saveCurrent_no_dataset (now : string) (w : Env) :
  dataset w = [] ->
  part_000.saveCurrent now w =
    Normal (w, {| ok := false; message := Some "No dataset" |}).
Proof. intros He. unfold part_000.saveCurrent. rewrite He. reflexivity. Qed.

Lemma saveCurrent_rejected (now : string) (w : Env) (item : object) :
  dataset_at (dataset w) (index w) = Some item ->
  ok (part_000.validate (form w) (getFormValues (form w))) = false ->
  part_000.saveCurrent now w =
    Normal (w, part_000.validate (form w) (getFormValues (form w))).
Proof.
  intros Hitem Hv. unfold part_000.saveCurrent.
  rewrite (dataset_at_nonempty _ _ _ Hitem), Hitem. cbn [item_of mbind completion_bind].
  rewrite Hv. reflexivity.
Qed.

Lemma saveCurrent_accepted (now : string) (w : Env) (item : object) :
  dataset_at (dataset w) (index w) = Some item ->
  ok (part_000.validate (form w) (getFormValues (form w))) = true ->
  exists t p,
    part_000.saveCurrent now w =
      Normal (set_progress t p
                (saveState
                   (set_rating (makeKey (index w) item)
                      (part_000.strict_record now w item (getFormValues (form w)))
                      w)),
              {| ok := true; message := None |}).
Proof.
  intros Hitem Hv. unfold part_000.saveCurrent.
  rewrite (dataset_at_nonempty _ _ _ Hitem), Hitem. cbn [item_of mbind completion_bind].
  rewrite Hv. cbn [negb].
  match goal with
  | |- context [updateProgress ?x] =>
      destruct (updateProgress_normal x) as (t & p & ->)
  end.
  exists t, p. reflexivity.
Qed.

(** What [validate] answers when a required field is missing. *)
Lemma validate_missing (f : Form) :
  is_checked (tooShortCheckbox f) = false ->
  missing_required f ->
  exists msg,
    part_000.validate f (getFormValues f) =
      {| ok := false; message := Some msg |}.
Proof.
  intros Hts Hmiss. unfold part_000.validate, getFormValues. rewrite Hts.
  cbn [category valence subcategory needsSub].
  destruct (String.eqb_spec (form_category f) "") as [_|Hc]; [eauto|].
  destruct (String.eqb_spec (form_valence f) "") as [_|Hv]; [eauto|].
  destruct Hmiss as [Hm | [Hm | [Hn Hs]]]; [contradiction | contradiction |].
  rewrite Hn, Hs. cbn. eauto.
Qed.

(** *** The partial autosave of [part_000] *)

Lemma savePartialProgress_no_dataset (now : string) (w : Env) :
  dataset w = [] -> part_000.savePartialProgress now w = Normal w.
Proof. intros He. unfold part_000.savePartialProgress. rewrite He. reflexivity. Qed.

Lemma savePartialProgress_written (now : string) (w : Env) (item : object) :
  dataset_at (dataset w) (index w) = Some item ->
  exists t p,
    part_000.savePartialProgress now w =
      Normal (set_progress t p
                (saveState
                   (set_rating (makeKey (index w) item)
                      (part_000.partial_record now w item (getFormValues (form w)))
                      w))).
Proof.
  intros Hitem. unfold part_000.savePartialProgress.
  rewrite (dataset_at_nonempty _ _ _ Hitem), Hitem. cbn [item_of mbind completion_bind].
  apply updateProgress_normal.
Qed.

(** *** The same for [script.js] *)

Lemma legacy_saveCurrent_no_dataset (now : string) (w : Env) :
  dataset w = [] ->
  script_js.saveCurrent now w =
    Normal (w, {| ok := false; message := Some "No dataset" |}).
Proof. intros He. unfold script_js.saveCurrent. rewrite He. reflexivity. Qed.

Lemma legacy_saveCurrent_cases (now : string) (w : Env) (item : object) :
  dataset_at (dataset w) (index w) = Some item ->
  (ok (script_js.validate (getFormValues (form w))) = false /\
   script_js.saveCurrent now w =
     Normal (w, script_js.validate (getFormValues (form w)))) \/
  (exists t p,
     script_js.saveCurrent now w =
       Normal (set_progress t p
                 (saveState
                    (set_rating (makeKey (index w) item)
                       (script_js.strict_record now w item (getFormValues (form w)))
                       w)),
               {| ok := true; message := None |})).
Proof.
  intros Hitem. unfold script_js.saveCurrent.
  rewrite (dataset_at_nonempty _ _ _ Hitem), Hitem. cbn [item_of mbind completion_bind].
  destruct (ok (script_js.validate (getFormValues (form w)))) eqn:Hv; cbn [negb].
  - right.
    match goal with
    | |- context [updateProgress ?x] =>
        destruct (updateProgress_normal x) as (t & p & ->)
    end.
    exists t, p. reflexivity.
  - left. split; reflexivity.
Qed.

Lemma legacy_savePartialProgress_written (now : string) (w : Env)
    (item : object) :
  dataset_at (dataset w) (index w) = Some item ->
  exists t p,
    script_js.savePartialProgress now w =
      Normal (set_progress t p
                (saveState
                   (set_rating (makeKey (index w) item)
                      (script_js.partial_record now w item (getFormValues (form w)))
                      w))).
Proof.
  intros Hitem. unfold script_js.savePartialProgress.
  rewrite (dataset_at_nonempty _ _ _ Hitem), Hitem. cbn [item_of mbind completion_bind].
  apply updateProgress_normal.
Qed.

Lemma legacy_savePartialProgress_no_dataset (now : string) (w : Env) :
  dataset w = [] -> script_js.savePartialProgress now w = Normal w.
Proof. intros He. unfold script_js.savePartialProgress. rewrite He. reflexivity. Qed.

(** C10. With an empty dataset the strict save returns
    [{ok:false, message:"No dataset"}] and the partial autosave returns
    at once, in both files; the store, the rater id, the durable storage
    and everything else are as they were. *)
Theorem saves_without_dataset (now : string) (w : Env) :
  dataset w = [] ->
  part_000.saveCurrent now w =
    Normal (w, {| ok := false; message := Some "No dataset" |}) /\
  part_000.savePartialProgress now w = Normal w /\
  script_js.saveCurrent now w =
    Normal (w, {| ok := false; message := Some "No dataset" |}) /\
  script_js.savePartialProgress now w = Normal w.
Proof.
  intros He. repeat split.
  - apply saveCurrent_no_dataset, He.
  - apply savePartialProgress_no_dataset, He.
  - apply legacy_saveCurrent_no_dataset, He.
  - apply legacy_savePartialProgress_no_dataset, He.
Qed.

(** C4. With "too short to code" not checked and a required field
    missing (no category, no valence, or a category that needs a
    subcategory and none chosen), the strict save returns
    [{ok:false, message}] and the variables of the script, the store, the
    rater id and the durable storage among them, are exactly as before. *)
Theorem strict_save_rejects_incomplete (now : string) (w : Env) :
  cursor_ok w ->
  is_checked (tooShortCheckbox (form w)) = false ->
  missing_required (form w) ->
  exists msg,
    part_000.saveCurrent now w =
      Normal (w, {| ok := false; message := Some msg |}).
Proof.
  intros [He | Hr] Hts Hmiss.
  - eexists. apply saveCurrent_no_dataset, He.
  - destruct (dataset_at_in_range _ _ Hr) as [item Hitem].
    destruct (validate_missing _ Hts Hmiss) as [msg Hmsg].
    exists msg. rewrite <- Hmsg. apply (saveCurrent_rejected _ _ item Hitem).
    rewrite Hmsg. reflexivity.
Qed.

(** C1. A save performed while "too short to code" is checked, strict or
    partial, stores under the item's key a record whose [category],
    [valence] and [subcategory] are [null] and whose [tooShort] is
    [true], whatever the form holds; the partial autosave also sets
    [isComplete] to [true].  The store is written through to durable
    storage. *)
Theorem too_short_nulls_fields (now : string) (w : Env) (item : object) :
  dataset_at (dataset w) (index w) = Some item ->
  tooShortCheckbox (form w) = Some true ->
  (exists w' rec,
     part_000.saveCurrent now w = Normal (w', {| ok := true; message := None |}) /\
     ratingsById (state w') !! makeKey (index w) item = Some rec /\
     localStorage w' = Some (state w') /\
     rec !! "category" = Some Null /\
     rec !! "valence" = Some Null /\
     rec !! "subcategory" = Some Null /\
     rec !! "tooShort" = Some (Bool true)) /\
  (exists w' rec,
     part_000.savePartialProgress now w = Normal w' /\
     ratingsById (state w') !! makeKey (index w) item = Some rec /\
     localStorage w' = Some (state w') /\
     rec !! "category" = Some Null /\
     rec !! "valence" = Some Null /\
     rec !! "subcategory" = Some Null /\
     rec !! "tooShort" = Some (Bool true) /\
     rec !! "isComplete" = Some (Bool true)).
Proof.
  intros Hitem Hts. split.
  - destruct (saveCurrent_accepted now w item Hitem) as (t & p & ->).
    { unfold part_000.validate. rewrite Hts. reflexivity. }
    eexists _, _. split; [reflexivity|].
    split; [apply lookup_insert_eq|]. split; [reflexivity|].
    unfold part_000.strict_record. rewrite Hts. cbn [is_checked].
    repeat split; vm_compute; reflexivity.
  - destruct (savePartialProgress_written now w item Hitem) as (t & p & ->).
    eexists _, _. split; [reflexivity|].
    split; [apply lookup_insert_eq|]. split; [reflexivity|].
    unfold part_000.partial_record. rewrite Hts. cbn [is_checked].
    rewrite orb_true_r.
    repeat split; vm_compute; reflexivity.
Qed.

(** *** Navigation *)

Lemma render_in_range (w : Env) :
  cursor_in_range w -> exists f, part_000.render w = Normal (set_form f w).
Proof.
  intros Hr. destruct (dataset_at_in_range _ _ Hr) as [item Hitem].
  unfold part_000.render.
  rewrite (dataset_at_nonempty _ _ _ Hitem), Hitem. cbn. eauto.
Qed.

Lemma legacy_render_in_range (w : Env) :
  cursor_in_range w -> exists f, script_js.render w = Normal (set_form f w).
Proof.
  intros Hr. destruct (dataset_at_in_range _ _ Hr) as [item Hitem].
  unfold script_js.render.
  rewrite (dataset_at_nonempty _ _ _ Hitem), Hitem. cbn. eauto.
Qed.

Lemma clamp_in_range (i delta : Z) (n : nat) :
  (0 <= i < Z.of_nat n)%Z ->
  (0 <= Z.min (Z.max (i + delta) 0) (Z.of_nat n - 1) <= Z.of_nat n - 1)%Z.
Proof. lia. Qed.

Lemma go_moves (delta : Z) (w : Env) :
  cursor_in_range w ->
  exists w',
    part_000.go delta w = Normal w' /\
    index w' = Z.min (Z.max (index w + delta) 0)
                     (Z.of_nat (length (dataset w)) - 1) /\
    dataset w' = dataset w /\ state w' = state w /\
    localStorage w' = localStorage w.
Proof.
  intros Hr. unfold part_000.go.
  destruct (Nat.eqb_spec (length (dataset w)) 0) as [He|_].
  { unfold cursor_in_range in Hr. lia. }
  cbv zeta.
  destruct (Z.eqb_spec (Z.min (Z.max (index w + delta) 0)
                              (Z.of_nat (length (dataset w)) - 1)) (index w))
    as [Heq | Hne].
  - exists w. rewrite Heq. auto.
  - destruct (render_in_range
                (set_index (Z.min (Z.max (index w + delta) 0)
                                  (Z.of_nat (length (dataset w)) - 1)) w))
      as [f ->].
    { unfold cursor_in_range in *. cbn. lia. }
    eexists. split; [reflexivity|]. cbn. auto.
Qed.

Lemma legacy_go_moves (delta : Z) (w : Env) :
  cursor_in_range w ->
  exists w',
    script_js.go delta w = Normal w' /\
    index w' = Z.min (Z.max (index w + delta) 0)
                     (Z.of_nat (length (dataset w)) - 1) /\
    dataset w' = dataset w /\ state w' = state w /\
    localStorage w' = localStorage w.
Proof.
  intros Hr. unfold script_js.go.
  destruct (Nat.eqb_spec (length (dataset w)) 0) as [He|_].
  { unfold cursor_in_range in Hr. lia. }
  cbv zeta.
  destruct (Z.eqb_spec (Z.min (Z.max (index w + delta) 0)
                              (Z.of_nat (length (dataset w)) - 1)) (index w))
    as [Heq | Hne].
  - exists w. rewrite Heq. auto.
  - destruct (legacy_render_in_range
                (set_index (Z.min (Z.max (index w + delta) 0)
                                  (Z.of_nat (length (dataset w)) - 1)) w))
      as [f ->].
    { unfold cursor_in_range in *. cbn. lia. }
    eexists. split; [reflexivity|]. cbn. auto.
Qed.

Lemma go_zero (w : Env) :
  cursor_in_range w ->
  part_000.go 0 w = Normal w /\ script_js.go 0 w = Normal w.
Proof.
  intros Hr. unfold part_000.go, script_js.go, cursor_in_range in *.
  destruct (Nat.eqb_spec (length (dataset w)) 0) as [He|_]; [auto|].
  cbv zeta.
  replace (Z.min (Z.max (index w + 0) 0) (Z.of_nat (length (dataset w)) - 1))
    with (index w) by lia.
  rewrite Z.eqb_refl. auto.
Qed.

(** C6. With a dataset of [N >= 1] items and the cursor in [[0, N-1]],
    [go(delta)] returns with the cursor at [index + delta] clamped into
    [[0, N-1]], for every integer [delta], so never outside that range;
    [go(0)] changes nothing; with an empty dataset [go(delta)] changes
    nothing.  Both files. *)
Theorem go_clamps_cursor (delta : Z) (w : Env) :
  (dataset w = [] ->
   part_000.go delta w = Normal w /\ script_js.go delta w = Normal w) /\
  (cursor_in_range w ->
   let next := Z.min (Z.max (index w + delta) 0)
                     (Z.of_nat (length (dataset w)) - 1) in
   (0 <= next <= Z.of_nat (length (dataset w)) - 1)%Z /\
   (exists w', part_000.go delta w = Normal w' /\
               index w' = next /\ dataset w' = dataset w) /\
   (exists w', script_js.go delta w = Normal w' /\
               index w' = next /\ dataset w' = dataset w) /\
   part_000.go 0 w = Normal w /\
   script_js.go 0 w = Normal w).
Proof.
  split.
  - intros He. unfold part_000.go, script_js.go. rewrite He. auto.
  - intros Hr next. split; [apply clamp_in_range, Hr|].
    destruct (go_moves delta w Hr) as (w1 & Hg1 & Hi1 & Hd1 & _).
    destruct (legacy_go_moves delta w Hr) as (w2 & Hg2 & Hi2 & Hd2 & _).
    destruct (go_zero w Hr) as [Hz1 Hz2].
    repeat split; eauto.
Qed.

(** *** The sanitizer *)

Lemma typeof_string (v : option value) :
  String.eqb (typeof v) "string" = true -> exists s, v = Some (Str s).
Proof.
  destruct v as [[| | | s | |]|]; cbn; try discriminate. eauto.
Qed.

Lemma sanitizeItem_transcription (x : value) :
  sanitizeItem x !! "transcription" =
    Some (match spread x !! "transcription" with
          | Some (Str s) => Str s
          | _ => Null
          end).
Proof.
  unfold sanitizeItem. cbv zeta.
  set (c1 := if negb (String.eqb (typeof (spread x !! "transcription")) "string")
             then <["transcription" := Null]> (spread x) else spread x).
  assert (Hc1 : c1 !! "transcription" =
                Some (match spread x !! "transcription" with
                      | Some (Str s) => Str s
                      | _ => Null
                      end)).
  { subst c1. destruct (spread x !! "transcription") as [[| | | s | |]|] eqn:Ht;
      cbn; rewrite ?lookup_insert_eq; auto. }
  clearbody c1.
  destruct (negb _); [rewrite lookup_insert_ne by discriminate|]; exact Hc1.
Qed.

Lemma sanitizeItem_content (x : value) :
  sanitizeItem x !! "content" =
    Some (match spread x !! "content" with
          | Some (Str s) => Str s
          | _ => Str ""
          end).
Proof.
  unfold sanitizeItem. cbv zeta.
  set (c1 := if negb (String.eqb (typeof (spread x !! "transcription")) "string")
             then <["transcription" := Null]> (spread x) else spread x).
  assert (Hc1 : c1 !! "content" = spread x !! "content").
  { subst c1. destruct (negb _); [apply lookup_insert_ne; discriminate|reflexivity]. }
  clearbody c1. rewrite Hc1.
  destruct (spread x !! "content") as [[| | | s | |]|] eqn:Ht;
    cbn; rewrite ?lookup_insert_eq; auto.
Qed.

Lemma sanitizeItem_other (x : value) (k : string) :
  k <> "transcription" -> k <> "content" ->
  sanitizeItem x !! k = spread x !! k.
Proof.
  intros Hk1 Hk2. unfold sanitizeItem. cbv zeta.
  repeat match goal with
         | |- context [if ?b then _ else _] => destruct b
         end;
    rewrite ?lookup_insert_ne by congruence; reflexivity.
Qed.

Lemma sanitizeItem_fixed (o : object) (s : string) (v : value) :
  o !! "transcription" = Some v -> (v = Null \/ exists t, v = Str t) ->
  o !! "content" = Some (Str s) ->
  sanitizeItem (Obj o) = o.
Proof.
  intros Ht Hv Hc. unfold sanitizeItem. cbn [spread]. cbv zeta.
  assert (H1 : (if negb (String.eqb (typeof (o !! "transcription")) "string")
                then <["transcription" := Null]> o else o) = o).
  { rewrite Ht. destruct Hv as [-> | [t ->]]; cbn; [|reflexivity].
    apply insert_id, Ht. }
  rewrite H1, Hc. reflexivity.
Qed.

(** C8. Sanitising is idempotent on every JSON value.  The sanitised
    item has a [transcription] that is the original string or else
    [null], a [content] that is the original string or else the empty
    string, and every other property as the original has it. *)
Theorem sanitizeItem_idempotent (x : value) :
  sanitizeItem (Obj (sanitizeItem x)) = sanitizeItem x /\
  sanitizeItem x !! "transcription" =
    Some (match spread x !! "transcription" with
          | Some (Str s) => Str s
          | _ => Null
          end) /\
  sanitizeItem x !! "content" =
    Some (match spread x !! "content" with
          | Some (Str s) => Str s
          | _ => Str ""
          end) /\
  (forall k, k <> "transcription" -> k <> "content" ->
             sanitizeItem x !! k = spread x !! k).
Proof.
  split; [|split; [apply sanitizeItem_transcription|
                   split; [apply sanitizeItem_content|
                           apply sanitizeItem_other]]].
  pose proof (sanitizeItem_transcription x) as Ht.
  pose proof (sanitizeItem_content x) as Hc.
  destruct (spread x !! "content") as [[| | | s | |]|];
    (eapply sanitizeItem_fixed; [exact Ht | | exact Hc]);
    destruct (spread x !! "transcription") as [[| | | t | |]|]; eauto.
Qed.

(** *** A cursor outside the dataset

    Reading [item.id] of [undefined] raises before anything is stored. *)

Lemma nonempty_length (d : list object) :
  d <> [] -> Nat.eqb (length d) 0 = false.
Proof. destruct d; [contradiction|reflexivity]. Qed.

Lemma saveCurrent_out_of_range (now : string) (w : Env) :
  dataset w <> [] -> dataset_at (dataset w) (index w) = None ->
  part_000.saveCurrent now w = Throw TypeError.
Proof.
  intros Hne Hnone. unfold part_000.saveCurrent.
  rewrite (nonempty_length _ Hne), Hnone. reflexivity.
Qed.

Lemma legacy_saveCurrent_out_of_range (now : string) (w : Env) :
  dataset w <> [] -> dataset_at (dataset w) (index w) = None ->
  script_js.saveCurrent now w = Throw TypeError.
Proof.
  intros Hne Hnone. unfold script_js.saveCurrent.
  rewrite (nonempty_length _ Hne), Hnone. reflexivity.
Qed.

(** *** Records without [isComplete] *)

Lemma filter_misses_one {A : Type} (f : A -> bool) (l : list A) (x : A) :
  x ∈ l -> f x = false -> length (List.filter f l) < length l.
Proof.
  intros Hin Hx. induction Hin as [x l | x y l Hin IH]; cbn.
  - rewrite Hx. pose proof (List.filter_length_le f l). lia.
  - destruct (f y); cbn; specialize (IH Hx); lia.
Qed.

(** After a record without [isComplete] was stored for the item under
    the cursor and the progress was displayed. *)
Lemma uncounted_after_store (w : Env) (item rec : object) (t : string)
    (p : spec_float) :
  dataset_at (dataset w) (index w) = Some item ->
  rec !! "isComplete" = None ->
  stored_without_isComplete w
    (set_progress t p (saveState (set_rating (makeKey (index w) item) rec w))).
Proof.
  intros Hitem Hrec.
  set (w' := set_progress t p
               (saveState (set_rating (makeKey (index w) item) rec w))).
  assert (Hin : item ∈ dataset w').
  { apply dataset_at_Some in Hitem as [_ Hl].
    apply list_elem_of_lookup. eauto. }
  assert (Hst : ratingsById (state w') !! makeKey (index w) item = Some rec)
    by apply lookup_insert_eq.
  assert (Hc : counted w' item = false).
  { unfold counted. change (index w') with (index w).
    rewrite Hst. cbn. rewrite Hrec. reflexivity. }
  exists item, rec. repeat (split; [assumption|]).
  eexists. split; [apply progress_normal|]. cbn [done total].
  split; [reflexivity|].
  apply (filter_misses_one _ _ item); assumption.
Qed.

(** C9. A record written by a successful strict save, in either file,
    has no [isComplete] property; the item it was saved for is therefore
    not counted by the progress loop, and the number done stays below the
    total. *)
Theorem strict_save_leaves_item_uncounted (now : string) (w w' : Env)
    (r : result) :
  ok r = true ->
  (part_000.saveCurrent now w = Normal (w', r) ->
   stored_without_isComplete w w') /\
  (script_js.saveCurrent now w = Normal (w', r) ->
   stored_without_isComplete w w').
Proof.
  intros Hok. split; intros Hsave.
  - destruct (dataset w) as [|i0 d] eqn:Hd.
    { rewrite saveCurrent_no_dataset in Hsave by exact Hd.
      inversion Hsave; subst. discriminate. }
    destruct (dataset_at (dataset w) (index w)) as [item|] eqn:Hitem.
    2:{ rewrite saveCurrent_out_of_range in Hsave; [discriminate| |exact Hitem].
        rewrite Hd. discriminate. }
    destruct (ok (part_000.validate (form w) (getFormValues (form w)))) eqn:Hv.
    + destruct (saveCurrent_accepted now w item Hitem Hv) as (t & p & He).
      rewrite He in Hsave. inversion Hsave; subst.
      apply uncounted_after_store; [exact Hitem|].
      unfold part_000.strict_record.
      destruct (is_checked (tooShortCheckbox (form w))); vm_compute; reflexivity.
    + rewrite (saveCurrent_rejected now w item Hitem Hv) in Hsave.
      inversion Hsave; subst. congruence.
  - destruct (dataset w) as [|i0 d] eqn:Hd.
    { rewrite legacy_saveCurrent_no_dataset in Hsave by exact Hd.
      inversion Hsave; subst. discriminate. }
    destruct (dataset_at (dataset w) (index w)) as [item|] eqn:Hitem.
    2:{ rewrite legacy_saveCurrent_out_of_range in Hsave;
          [discriminate| |exact Hitem].
        rewrite Hd. discriminate. }
    destruct (legacy_saveCurrent_cases now w item Hitem)
      as [[Hv He] | (t & p & He)]; rewrite He in Hsave; inversion Hsave; subst.
    + congruence.
    + apply uncounted_after_store; [exact Hitem|].
      unfold script_js.strict_record. vm_compute. reflexivity.
Qed.

(** *** The rater id *)

Lemma strict_eq_prim_true (a : option value) (b : value) :
  strict_eq_prim a b = true -> a = Some b.
Proof.
  destruct a as [[| x | x | x | |]|], b as [| y | y | y | |]; cbn;
    try discriminate; intros Heq.
  - reflexivity.
  - apply Bool.eqb_prop in Heq. congruence.
  - apply Z.eqb_eq in Heq. congruence.
  - apply String.eqb_eq in Heq. congruence.
Qed.

Lemma stamp_idempotent (c : value) (r : object) :
  stamp c (stamp c r) = stamp c r.
Proof. apply insert_insert_eq. Qed.

Lemma propagate_step_lookup (c : value) (key k : string)
    (m : gmap string object) :
  part_000.propagate_step c key m !! k =
    if decide (k = key) then stamp c <$> m !! key else m !! k.
Proof.
  unfold part_000.propagate_step.
  destruct (decide (k = key)) as [->|Hk].
  - destruct (m !! key) as [r|] eqn:Hr; [|exact Hr].
    destruct (strict_eq_prim (r !! "raterId") c) eqn:Heq; cbn [negb].
    + apply strict_eq_prim_true in Heq.
      rewrite Hr. cbn. unfold stamp. rewrite insert_id by exact Heq. reflexivity.
    + rewrite lookup_insert_eq. reflexivity.
  - destruct (m !! key) as [r|]; [|reflexivity].
    destruct (negb _); [|reflexivity].
    apply lookup_insert_ne. congruence.
Qed.

Lemma propagate_loop_lookup (c : value) (ks : list string)
    (m : gmap string object) (k : string) :
  foldl (fun m key => part_000.propagate_step c key m) m ks !! k =
    if decide (k ∈ ks) then stamp c <$> m !! k else m !! k.
Proof.
  revert m. induction ks as [|a ks IH]; intros m; cbn [foldl].
  - case_decide as Hin; [|reflexivity]. inversion Hin.
  - rewrite IH, propagate_step_lookup.
    destruct (decide (k = a)) as [->|Hne].
    + rewrite (decide_True (P := a ∈ a :: ks)) by apply list_elem_of_here.
      case_decide; [|reflexivity].
      destruct (m !! a); cbn; [|reflexivity]. rewrite stamp_idempotent. reflexivity.
    + destruct (decide (k ∈ ks)) as [Hin|Hnin].
      * rewrite decide_True by (apply list_elem_of_further, Hin). reflexivity.
      * rewrite decide_False; [reflexivity|].
        intros Hin. apply elem_of_cons in Hin as [?|?]; contradiction.
Qed.

Lemma propagate_stamps_all (w : Env) :
  ratingsById (state (part_000.propagateRaterIdAcrossRatings w)) =
    stamp (current w) <$> ratingsById (state w).
Proof.
  apply map_eq. intros k. rewrite lookup_fmap.
  unfold part_000.propagateRaterIdAcrossRatings. cbn.
  rewrite propagate_loop_lookup. case_decide as Hin; [reflexivity|].
  destruct (ratingsById (state w) !! k) as [r|] eqn:Hr; [|reflexivity].
  exfalso. apply Hin. unfold Object_keys.
  apply list_elem_of_fmap. exists (k, r). split; [reflexivity|].
  apply elem_of_map_to_list, Hr.
Qed.

Lemma raterIdInput_input_effect (v : string) (w : Env) :
  raterId (state (part_000.raterIdInput_input v w)) = trim v /\
  ratingsById (state (part_000.raterIdInput_input v w)) =
    stamp (str_or_null (trim v)) <$> ratingsById (state w) /\
  localStorage (part_000.raterIdInput_input v w) =
    Some (state (part_000.raterIdInput_input v w)) /\
  dataset (part_000.raterIdInput_input v w) = dataset w /\
  index (part_000.raterIdInput_input v w) = index w.
Proof.
  unfold part_000.raterIdInput_input.
  repeat split; try reflexivity.
  change (ratingsById (state (saveState ?x))) with (ratingsById (state x)).
  rewrite propagate_stamps_all. reflexivity.
Qed.

(** C3, as amended.  Setting the rater id makes the trimmed text of the
    field the session's rater id and overwrites the [raterId] of every
    record in the store with it, or with [null] when it is empty; no
    record is added or dropped, nothing else in a record changes, and
    the state is written to durable storage.  After "r1" and then "r2",
    every record carries "r2" and none "r1". *)
Theorem rater_id_stamped_on_all_records (v : string) (w : Env) :
  let w' := part_000.raterIdInput_input v w in
  raterId (state w') = trim v /\
  ratingsById (state w') = stamp (str_or_null (trim v)) <$> ratingsById (state w) /\
  (forall k r', ratingsById (state w') !! k = Some r' ->
     r' !! "raterId" = Some (if String.eqb (trim v) "" then Null else Str (trim v)) /\
     exists r, ratingsById (state w) !! k = Some r /\
               forall p, p <> "raterId" -> r' !! p = r !! p) /\
  localStorage w' = Some (state w') /\
  (let w2 := part_000.raterIdInput_input "r2" (part_000.raterIdInput_input "r1" w) in
   raterId (state w2) = "r2" /\
   forall k, is_Some (ratingsById (state w) !! k) ->
     exists r', ratingsById (state w2) !! k = Some r' /\
                r' !! "raterId" = Some (Str "r2") /\
                r' !! "raterId" <> Some (Str "r1")).
Proof.
  intros w'. subst w'.
  destruct (raterIdInput_input_effect v w) as (Hid & Hst & Hls & _).
  split; [exact Hid|]. split; [exact Hst|]. split; [|split; [exact Hls|]].
  - intros k r' Hk. rewrite Hst, lookup_fmap in Hk.
    destruct (ratingsById (state w) !! k) as [r|] eqn:Hr; [|discriminate].
    cbn in Hk. injection Hk as <-. split.
    + unfold stamp. rewrite lookup_insert_eq. reflexivity.
    + exists r. split; [reflexivity|]. intros p Hp.
      unfold stamp. apply lookup_insert_ne. congruence.
  - cbv zeta.
    destruct (raterIdInput_input_effect "r2" (part_000.raterIdInput_input "r1" w))
      as (Hid2 & Hst2 & _).
    destruct (raterIdInput_input_effect "r1" w) as (_ & Hst1 & _).
    split; [exact Hid2|]. intros k [r Hr].
    rewrite Hst2, Hst1, !lookup_fmap, Hr. cbn.
    eexists. split; [reflexivity|].
    unfold stamp. rewrite lookup_insert_eq. split; [reflexivity|discriminate].
Qed.

(** *** The export *)

Lemma Object_values_elem (m : gmap string object) (r : object) :
  r ∈ Object_values m <-> exists k, m !! k = Some r.
Proof.
  unfold Object_values. rewrite list_elem_of_fmap. split.
  - intros ([k r0] & -> & Hin). exists k. apply elem_of_map_to_list, Hin.
  - intros [k Hk]. exists (k, r). split; [reflexivity|].
    apply elem_of_map_to_list, Hk.
Qed.

Lemma export_ratings (now : string) (w : Env) :
  ratings (part_000.exportJson now w) =
    (fun r => <["raterId" := exported_raterId (raterId (state w)) r]> r)
    <$> Object_values (ratingsById (state w)) /\
  ratings (script_js.exportJson now w) = Object_values (ratingsById (state w)).
Proof.
  split; [|reflexivity].
  cbn. unfold exported_raterId.
  destruct (String.eqb (raterId (state w)) ""); reflexivity.
Qed.

(** C7, as amended.  The export holds the creation time stamp, the
    dataset size and one entry for every stored record and no other.
    In [part_000] an exported record is the stored one with [raterId]
    replaced by the session's rater id whenever that is not empty; only
    when the session has none does the record keep its own, and [null]
    stands in when it has none either.  In [script.js] the records are
    exported as they are stored. *)
Theorem export_prefers_session_rater (now : string) (w : Env) :
  let m := ratingsById (state w) in
  let session := raterId (state w) in
  let p := part_000.exportJson now w in
  let q := script_js.exportJson now w in
  (createdAt p = now /\ datasetSize p = length (dataset w) /\
   payload_raterId p = str_or_null session /\
   length (ratings p) = size m /\
   ratings p = (fun r => <["raterId" := exported_raterId session r]> r)
               <$> Object_values m /\
   (forall r', r' ∈ ratings p <->
      exists k r, m !! k = Some r /\
                  r' = <["raterId" := exported_raterId session r]> r) /\
   (forall r', r' ∈ ratings p ->
      session <> "" -> r' !! "raterId" = Some (Str session))) /\
  (createdAt q = now /\ datasetSize q = length (dataset w) /\
   payload_raterId q = str_or_null session /\
   length (ratings q) = size m /\
   (forall r, r ∈ ratings q <-> exists k, m !! k = Some r)).
Proof.
  intros m session p q. subst p q.
  assert (Hr : ratings (part_000.exportJson now w) =
               (fun r => <["raterId" := exported_raterId session r]> r)
               <$> Object_values m).
  { cbn. unfold exported_raterId. subst session m.
    destruct (String.eqb (raterId (state w)) ""); reflexivity. }
  split; [split; [reflexivity|split; [reflexivity|split; [reflexivity|]]]|].
  - split; [|split; [exact Hr|split]].
    + rewrite Hr, length_fmap. unfold Object_values.
      rewrite length_fmap. apply length_map_to_list.
    + intros r'. rewrite Hr, list_elem_of_fmap. split.
      * intros (r & -> & Hin). apply Object_values_elem in Hin as [k Hk]. eauto.
      * intros (k & r & Hk & ->). exists r. split; [reflexivity|].
        apply Object_values_elem. eauto.
    + intros r' Hin Hne. rewrite Hr in Hin.
      apply list_elem_of_fmap in Hin as (r & -> & _).
      rewrite lookup_insert_eq. unfold exported_raterId.
      destruct (String.eqb_spec session ""); [contradiction|reflexivity].
  - split; [reflexivity|split; [reflexivity|split; [reflexivity|split]]].
    + cbn. unfold Object_values. rewrite length_fmap. apply length_map_to_list.
    + intros r. apply Object_values_elem.
Qed.

(** *** What the script maintains

    The cursor stays valid, so no handler of [part_000] reads a property
    of [undefined]; the records keep [isComplete] boolean or absent and
    carry the rater id of the session. *)

Lemma cursor_in_range_item (w : Env) :
  cursor_in_range w -> exists item, dataset_at (dataset w) (index w) = Some item.
Proof. intros Hr. apply dataset_at_in_range, Hr. Qed.

Lemma savePartialProgress_effect (now : string) (w : Env) :
  cursor_ok w ->
  exists w',
    part_000.savePartialProgress now w = Normal w' /\
    dataset w' = dataset w /\ index w' = index w /\ form w' = form w /\
    raterId (state w') = raterId (state w) /\
    (ratingsById (state w') = ratingsById (state w) \/
     exists item,
       ratingsById (state w') =
         <[makeKey (index w) item :=
             part_000.partial_record now w item (getFormValues (form w))]>
           (ratingsById (state w))).
Proof.
  intros [He | Hr].
  - exists w. rewrite savePartialProgress_no_dataset by exact He. auto 10.
  - destruct (cursor_in_range_item w Hr) as [item Hitem].
    destruct (savePartialProgress_written now w item Hitem) as (t & p & ->).
    eexists. split; [reflexivity|]. cbn. eauto 10.
Qed.

Lemma partial_record_isComplete (now : string) (w : Env) (item : object)
    (values : FormValues) :
  exists b, part_000.partial_record now w item values !! "isComplete" = Some (Bool b).
Proof. eexists. unfold part_000.partial_record. vm_compute. reflexivity. Qed.

Lemma partial_record_raterId (now : string) (w : Env) (item : object)
    (values : FormValues) :
  part_000.partial_record now w item values !! "raterId" = Some (current w).
Proof. unfold part_000.partial_record, current. vm_compute. reflexivity. Qed.

(** Facts that depend only on the store and the rater id. *)
Lemma store_facts_transfer (w w' : Env) :
  state w' = state w ->
  isComplete_boolean (ratingsById (state w)) /\ carries_current w ->
  isComplete_boolean (ratingsById (state w')) /\ carries_current w'.
Proof.
  unfold carries_current, current. intros ->. auto.
Qed.

Lemma savePartialProgress_invariant (now : string) (w : Env) :
  invariant w ->
  exists w',
    part_000.savePartialProgress now w = Normal w' /\
    dataset w' = dataset w /\ index w' = index w /\ invariant w'.
Proof.
  intros (Hc & Hb & Hcur).
  destruct (savePartialProgress_effect now w Hc)
    as (w' & Hs & Hd & Hi & _ & Hid & Hst).
  exists w'. split; [exact Hs|]. split; [exact Hd|]. split; [exact Hi|].
  split; [|split].
  - unfold cursor_ok, cursor_in_range in *. rewrite Hd, Hi. exact Hc.
  - destruct Hst as [-> | [item ->]]; [exact Hb|].
    intros k r Hk. apply lookup_insert_Some in Hk as [[_ <-] | [_ Hk]].
    + right. apply partial_record_isComplete.
    + apply (Hb _ _ Hk).
  - unfold carries_current, current in *. rewrite Hid.
    destruct Hst as [-> | [item ->]]; [exact Hcur|].
    intros k r Hk. apply lookup_insert_Some in Hk as [[_ <-] | [_ Hk]].
    + apply partial_record_raterId.
    + apply (Hcur _ _ Hk).
Qed.

Lemma render_invariant (w : Env) :
  invariant w ->
  exists f, part_000.render w = Normal (set_form f w) /\ invariant (set_form f w).
Proof.
  intros (Hc & Hb & Hcur).
  assert (Hn : exists f, part_000.render w = Normal (set_form f w)).
  { destruct Hc as [He | Hr]; [|apply render_in_range, Hr].
    unfold part_000.render. rewrite He. cbn. eauto. }
  destruct Hn as [f Hf]. exists f. split; [exact Hf|].
  split; [exact Hc|]. split; assumption.
Qed.

Lemma go_invariant (delta : Z) (w : Env) :
  invariant w -> exists w', part_000.go delta w = Normal w' /\ invariant w'.
Proof.
  intros (Hc & Hb & Hcur). destruct Hc as [He | Hr].
  - exists w. split; [|split; [left; exact He|split; assumption]].
    unfold part_000.go. rewrite He. reflexivity.
  - destruct (go_moves delta w Hr) as (w' & Hg & Hi & Hd & Hst & _).
    exists w'. split; [exact Hg|]. split.
    + right. unfold cursor_in_range in *. rewrite Hi, Hd. lia.
    + apply (store_facts_transfer w w' Hst). split; assumption.
Qed.

Lemma setDataset_invariant (items : list value) (w : Env) :
  isComplete_boolean (ratingsById (state w)) /\ carries_current w ->
  exists w', part_000.setDataset items w = Normal w' /\ invariant w'.
Proof.
  intros Hst. unfold part_000.setDataset.
  set (w1 := set_index 0 (set_dataset (List.map sanitizeItem items) w)).
  assert (Hinv : invariant w1).
  { split; [|exact Hst]. subst w1. destruct items as [|x items]; [left; reflexivity|].
    right. unfold cursor_in_range. cbn. lia. }
  destruct (render_invariant w1 Hinv) as (f & -> & Hinv').
  cbn [mbind completion_bind].
  destruct (updateProgress_normal (set_form f w1)) as (t & p & ->).
  eexists. split; [reflexivity|].
  destruct Hinv' as (Hc & Hb & Hcur). split; [exact Hc|]. split; assumption.
Qed.

Lemma propagate_carries_current (w : Env) :
  carries_current (part_000.propagateRaterIdAcrossRatings w) /\
  (isComplete_boolean (ratingsById (state w)) ->
   isComplete_boolean
     (ratingsById (state (part_000.propagateRaterIdAcrossRatings w)))).
Proof.
  split.
  - intros k r Hk. rewrite propagate_stamps_all, lookup_fmap in Hk.
    destruct (ratingsById (state w) !! k); [|discriminate].
    cbn in Hk. injection Hk as <-. unfold stamp. apply lookup_insert_eq.
  - intros Hb k r Hk. rewrite propagate_stamps_all, lookup_fmap in Hk.
    destruct (ratingsById (state w) !! k) as [r0|] eqn:Hr0; [|discriminate].
    cbn in Hk. injection Hk as <-. unfold stamp.
    rewrite lookup_insert_ne by discriminate. apply (Hb _ _ Hr0).
Qed.

(** Every handler of [part_000] returns from a state that satisfies the
    invariant, and in a state that satisfies it. *)
Lemma handle_invariant (e : part_000.event) (w : Env) :
  invariant w ->
  exists w', part_000.handle e w = Normal w' /\ invariant w'.
Proof.
  intros Hinv. destruct e as [f | now | now | now | now val | now | now | v | items];
    cbn [part_000.handle].
  - eexists. split; [reflexivity|exact Hinv].
  - destruct (savePartialProgress_invariant now w Hinv) as (w1 & -> & _ & _ & H1).
    apply go_invariant, H1.
  - destruct (savePartialProgress_invariant now w Hinv) as (w1 & -> & _ & _ & H1).
    apply go_invariant, H1.
  - destruct (savePartialProgress_invariant now
                (set_form (part_000.clearForm (form w)) w) Hinv)
      as (w1 & Hs & _ & _ & H1). eauto.
  - unfold part_000.jumpBtn_click. destruct val as [val|].
    2:{ eexists. split; [reflexivity|exact Hinv]. }
    destruct ((0 <=? val - 1)%Z && (val - 1 <? Z.of_nat (length (dataset w)))%Z)
      eqn:Hrange.
    2:{ eexists. split; [reflexivity|exact Hinv]. }
    apply andb_true_iff in Hrange as [Hlo Hhi].
    apply Z.leb_le in Hlo. apply Z.ltb_lt in Hhi.
    destruct (savePartialProgress_invariant now w Hinv)
      as (w1 & -> & Hd & _ & (_ & Hb & Hcur)).
    cbn [mbind completion_bind].
    destruct (render_invariant (set_index (val - 1) w1)) as (f & -> & Hinv').
    { split; [|split; assumption].
      right. unfold cursor_in_range. cbn. rewrite Hd. lia. }
    eexists. split; [reflexivity|exact Hinv'].
  - destruct (savePartialProgress_invariant now w Hinv) as (w1 & Hs & _ & _ & H1).
    eauto.
  - destruct (is_checked (tooShortCheckbox (form w)));
      [destruct (savePartialProgress_invariant now
                   (set_form (form_reset (form w)) w) Hinv)
         as (w1 & Hs & _ & _ & H1)
      |destruct (savePartialProgress_invariant now w Hinv)
         as (w1 & Hs & _ & _ & H1)]; eauto.
  - eexists. split; [reflexivity|].
    destruct Hinv as (Hc & Hb & _).
    destruct (raterIdInput_input_effect v w) as (_ & _ & _ & Hd & Hi).
    split; [|].
    { unfold cursor_ok, cursor_in_range in *. rewrite Hd, Hi. exact Hc. }
    unfold part_000.raterIdInput_input.
    destruct (propagate_carries_current (set_raterId (trim v) w)) as [Hcur Hkeep].
    split; [apply Hkeep, Hb|exact Hcur].
  - apply setDataset_invariant. destruct Hinv as (_ & Hb & Hcur). split; assumption.
Qed.

(** The script starts in a state that satisfies the invariant, whatever
    the durable entry holds, provided its records are records of the
    tool. *)
Lemma init_invariant (w : Env) :
  (forall parsed, localStorage w = Some parsed ->
                  isComplete_boolean (ratingsById parsed)) ->
  isComplete_boolean (ratingsById (state w)) ->
  exists w', part_000.init w = Normal w' /\ invariant w'.
Proof.
  intros Hstored Hb. unfold part_000.init.
  apply setDataset_invariant.
  destruct (propagate_carries_current (part_000.loadState w)) as [Hcur Hkeep].
  split; [|exact Hcur]. apply Hkeep.
  unfold part_000.loadState. destruct (localStorage w) as [parsed|] eqn:Hl.
  - apply (Hstored parsed eq_refl).
  - exact Hb.
Qed.

(** Under the invariant the export of [part_000] lists the records as
    they are stored: the stamping changes nothing. *)
Lemma export_of_stamped_store (now : string) (w : Env) :
  carries_current w ->
  ratings (part_000.exportJson now w) = Object_values (ratingsById (state w)).
Proof.
  intros Hcur.
  destruct (export_ratings now w) as [-> _].
  rewrite <- (list_fmap_id (Object_values (ratingsById (state w)))) at 2.
  apply list_fmap_ext. intros i r Hi.
  assert (Hin : r ∈ Object_values (ratingsById (state w)))
    by (apply list_elem_of_lookup; eauto).
  apply Object_values_elem in Hin as [k Hk].
  specialize (Hcur _ _ Hk). unfold id. apply insert_id. rewrite Hcur. f_equal.
  unfold exported_raterId, current, str_or_null.
  destruct (String.eqb (raterId (state w)) "") eqn:He; [|reflexivity].
  rewrite Hcur. unfold current, str_or_null. rewrite He. reflexivity.
Qed.

End facts.

(** ** The claims at concrete inputs *)

Section examples.
Import JS Common Spec Examples.




Lemma saves_without_dataset_witness :
  dataset (fresh complete_form) = [] /\
  part_000.saveCurrent "T" (fresh complete_form) =
    Normal (fresh complete_form, {| ok := false; message := Some "No dataset" |}) /\
  part_000.savePartialProgress "T" (fresh complete_form) =
    Normal (fresh complete_form).
Proof.
  split; [reflexivity|].
  destruct (saves_without_dataset "T" (fresh complete_form) eq_refl)
    as (H1 & H2 & _).
  split; assumption.
Defined.

Lemma strict_save_rejects_incomplete_witness :
  cursor_ok (at_first no_subcategory_form) /\
  is_checked (tooShortCheckbox (form (at_first no_subcategory_form))) = false /\
  missing_required (form (at_first no_subcategory_form)) /\
  exists msg,
    part_000.saveCurrent "T" (at_first no_subcategory_form) =
      Normal (at_first no_subcategory_form, {| ok := false; message := Some msg |}).
Proof.
  assert (Hc : cursor_ok (at_first no_subcategory_form)).
  { right. unfold cursor_in_range. cbn. lia. }
  assert (Hm : missing_required (form (at_first no_subcategory_form))).
  { right. right. split; reflexivity. }
  split; [exact Hc|]. split; [reflexivity|]. split; [exact Hm|].
  exact (strict_save_rejects_incomplete "T"
           (at_first no_subcategory_form) Hc eq_refl Hm).
Defined.

Lemma too_short_nulls_fields_witness :
  dataset_at (dataset (at_first too_short_form)) (index (at_first too_short_form))
    = Some first_item /\
  tooShortCheckbox (form (at_first too_short_form)) = Some true /\
  (exists w' rec,
     part_000.saveCurrent "T" (at_first too_short_form) =
       Normal (w', {| ok := true; message := None |}) /\
     ratingsById (state w') !! "1|" = Some rec /\
     rec !! "category" = Some Null) /\
  (exists w' rec,
     part_000.savePartialProgress "T" (at_first too_short_form) =
       Normal w' /\
     ratingsById (state w') !! "1|" = Some rec /\
     rec !! "category" = Some Null /\
     rec !! "isComplete" = Some (Bool true)).
Proof.
  split; [reflexivity|]. split; [reflexivity|].
  destruct (too_short_nulls_fields "T" (at_first too_short_form)
              first_item eq_refl eq_refl)
    as [(w1 & r1 & Hs1 & Hk1 & _ & Hc1 & _)
        (w2 & r2 & Hs2 & Hk2 & _ & Hc2 & _ & _ & _ & Hi2)].
  split.
  - exists w1, r1. repeat split; assumption.
  - exists w2, r2. repeat split; assumption.
Defined.

Lemma go_clamps_cursor_witness :
  cursor_in_range (at_first blank_form) /\
  (exists w', part_000.go (dom := page) 5 (at_first blank_form) = Normal w' /\
              index w' = 1%Z) /\
  (exists w', part_000.go (dom := page) (-5) (at_first blank_form) = Normal w' /\
              index w' = 0%Z) /\
  dataset (fresh blank_form) = [] /\
  part_000.go (dom := page) 5 (fresh blank_form) = Normal (fresh blank_form).
Proof.
  assert (Hr : cursor_in_range (at_first blank_form)).
  { unfold cursor_in_range. cbn. lia. }
  split; [exact Hr|].
  destruct (go_clamps_cursor (dom := page) 5 (at_first blank_form))
    as [_ Hup].
  destruct (Hup Hr) as (_ & (w1 & Hg1 & Hi1 & _) & _).
  destruct (go_clamps_cursor (dom := page) (-5) (at_first blank_form))
    as [_ Hdown].
  destruct (Hdown Hr) as (_ & (w2 & Hg2 & Hi2 & _) & _).
  destruct (go_clamps_cursor (dom := page) 5 (fresh blank_form)) as [Hempty _].
  split; [exists w1; split; [exact Hg1|exact Hi1]|].
  split; [exists w2; split; [exact Hg2|exact Hi2]|].
  split; [reflexivity|]. apply (Hempty eq_refl).
Defined.

Lemma sanitizeItem_idempotent_witness :
  "id" <> "transcription" /\ "id" <> "content" /\
  sanitizeItem (Obj (sanitizeItem (Obj {[ "id" := Num 7 ]}))) =
    sanitizeItem (Obj {[ "id" := Num 7 ]}) /\
  sanitizeItem (Obj {[ "id" := Num 7 ]}) !! "id" = Some (Num 7) /\
  sanitizeItem (Obj {[ "id" := Num 7 ]}) !! "transcription" = Some Null.
Proof.
  destruct (sanitizeItem_idempotent (Obj {[ "id" := Num 7 ]}))
    as (Hidem & Ht & _ & Hother).
  assert (H1 : "id" <> "transcription") by discriminate.
  assert (H2 : "id" <> "content") by discriminate.
  split; [exact H1|]. split; [exact H2|]. split; [exact Hidem|].
  split; [rewrite (Hother "id" H1 H2); reflexivity | rewrite Ht; reflexivity].
Defined.

(** The percentage is rounded as the script rounds it: 29 of 200 is
    14.499999999999998 in double arithmetic and shows as 14. *)
Example percent_examples :
  percent 0 0 = of_Z 0 /\ percent 1 2 = of_Z 50 /\ percent 1 3 = of_Z 33 /\
  percent 2 3 = of_Z 67 /\ percent 1 200 = of_Z 1 /\ percent 29 200 = of_Z 14 /\
  percent 200 200 = of_Z 100.
Proof. repeat split; vm_compute; reflexivity. Qed.

Lemma strict_save_leaves_item_uncounted_witness :
  exists w' r,
    part_000.saveCurrent "T" (at_first complete_form) = Normal (w', r) /\
    ok r = true /\
    stored_without_isComplete (at_first complete_form) w'.
Proof.
  destruct (saveCurrent_accepted "T" (at_first complete_form) first_item
              eq_refl eq_refl) as (t & p & Hs).
  eexists _, _. split; [exact Hs|]. split; [reflexivity|].
  exact (proj1 (strict_save_leaves_item_uncounted "T" (at_first complete_form)
                  _ {| ok := true; message := None |} eq_refl) Hs).
Defined.

(** Clearing the rater id field leaves [null], not the empty string, on
    the records: the claim C3 as worded fails there. *)
Lemma cleared_rater_id_is_null_on_records :
  let w := with_store (one_record (Str "r1")) "r1" (at_first blank_form) in
  let w' := part_000.raterIdInput_input "" w in
  raterId (state w') = "" /\
  (exists r, ratingsById (state w') !! "1|" = Some r /\
             r !! "raterId" = Some Null) /\
  ~ raterId_overwritten w'.
Proof.
  cbv zeta. split; [reflexivity|].
  assert (Hr : exists r,
             ratingsById
               (state (part_000.raterIdInput_input ""
                         (with_store (one_record (Str "r1")) "r1"
                                     (at_first blank_form)))) !! "1|" = Some r /\
             r !! "raterId" = Some Null).
  { destruct (raterIdInput_input_effect ""
                (with_store (one_record (Str "r1")) "r1" (at_first blank_form)))
      as (_ & -> & _).
    eexists. split.
    - rewrite lookup_fmap. unfold with_store, one_record, set_state, state, ratingsById.
      rewrite lookup_singleton_eq. reflexivity.
    - unfold stamp. apply lookup_insert_eq. }
  split; [exact Hr|].
  intros Hc. destruct Hr as (r & Hk & Hnull).
  specialize (Hc _ _ Hk). rewrite Hnull in Hc. discriminate.
Qed.

Lemma rater_id_stamped_on_all_records_witness :
  let w := with_store (one_record (Str "r1")) "r1" (at_first blank_form) in
  is_Some (ratingsById (state w) !! "1|") /\
  raterId (state (part_000.raterIdInput_input " r2 " w)) = "r2" /\
  exists r',
    ratingsById (state (part_000.raterIdInput_input "r2"
                          (part_000.raterIdInput_input "r1" w))) !! "1|" = Some r' /\
    r' !! "raterId" = Some (Str "r2").
Proof.
  cbv zeta.
  assert (Hs : is_Some (ratingsById
                          (state (with_store (one_record (Str "r1")) "r1"
                                             (at_first blank_form))) !! "1|")).
  { eexists. apply lookup_singleton_eq. }
  split; [exact Hs|].
  destruct (rater_id_stamped_on_all_records " r2 "
              (with_store (one_record (Str "r1")) "r1" (at_first blank_form)))
    as (Hid & _ & _ & _ & _ & Hscen).
  split; [exact Hid|].
  destruct (Hscen "1|" Hs) as (r' & Hk & Hr2 & _).
  exists r'. split; assumption.
Defined.

(** The claim C7 as worded fails in both files.  Given a record whose
    own rater id is "r1" and a session whose rater id is "r2", the
    export of [part_000] lists the record with "r2".  In [script.js],
    after an item was labelled with no rater id typed and the rater then
    typed "r1", the export lists the record with [null]. *)
Lemma export_not_as_claimed :
  let w := with_store (one_record (Str "r1")) "r2" (at_first blank_form) in
  ((exists r', ratings (part_000.exportJson "T" w) = [r'] /\
               r' !! "raterId" = Some (Str "r2")) /\
   ~ exported_as_claimed w (part_000.exportJson "T" w)) /\
  (exists v,
     named_after_labelling = Normal v /\
     raterId (state v) = "r1" /\
     (exists r', ratings (script_js.exportJson "T" v) = [r'] /\
                 r' !! "raterId" = Some Null) /\
     ~ exported_as_claimed v (script_js.exportJson "T" v)).
Proof.
  cbv zeta. split.
  - assert (Hv : Object_values (one_record (Str "r1")) =
                 [list_to_map [("id", Num 1); ("isComplete", Bool true);
                               ("raterId", Str "r1")]]).
    { unfold Object_values, one_record.
      rewrite map_to_list_singleton. reflexivity. }
    assert (Hp : ratings (part_000.exportJson "T"
                            (with_store (one_record (Str "r1")) "r2"
                                        (at_first blank_form))) =
                 [<["raterId" := Str "r2"]>
                    (list_to_map [("id", Num 1); ("isComplete", Bool true);
                                  ("raterId", Str "r1")])]).
    { unfold part_000.exportJson, ratings, with_store, set_state, state, ratingsById.
      rewrite Hv. reflexivity. }
    split.
    + eexists. split; [exact Hp|]. apply lookup_insert_eq.
    + unfold exported_as_claimed. rewrite Hp.
      unfold with_store, set_state, state, ratingsById. rewrite Hv.
      intros Hc. apply Forall2_cons_1 in Hc as [Hhd _].
      rewrite lookup_insert_eq in Hhd. vm_compute in Hhd. discriminate Hhd.
  - destruct (legacy_savePartialProgress_written "T1" (at_first complete_form)
                first_item eq_refl) as (t & p & Hs).
    unfold named_after_labelling. rewrite Hs. cbn [mbind completion_bind].
    eexists. split; [reflexivity|]. split; [reflexivity|].
    set (rec := script_js.partial_record "T1" (at_first complete_form) first_item
                  (getFormValues (form (at_first complete_form)))).
    assert (Hv : ratings (script_js.exportJson "T"
                   (script_js.raterIdInput_input "r1"
                      (set_progress t p
                         (saveState
                            (set_rating
                               (makeKey (index (at_first complete_form)) first_item)
                               rec (at_first complete_form)))))) = [rec]).
    { unfold script_js.exportJson, ratings, Object_values.
      cbn [script_js.raterIdInput_input saveState set_raterId set_localStorage
           set_progress set_rating set_state state ratingsById].
      change (ratingsById (state (at_first complete_form))) with (∅ : gmap string object).
      rewrite insert_empty, map_to_list_singleton. reflexivity. }
    assert (Hnull : rec !! "raterId" = Some Null) by (vm_compute; reflexivity).
    split.
    + exists rec. split; [exact Hv|exact Hnull].
    + unfold exported_as_claimed. rewrite Hv.
      change (Object_values _) with
        (ratings (script_js.exportJson "T"
                   (script_js.raterIdInput_input "r1"
                      (set_progress t p
                         (saveState
                            (set_rating
                               (makeKey (index (at_first complete_form)) first_item)
                               rec (at_first complete_form))))))).
      rewrite Hv. intros Hc. apply Forall2_cons_1 in Hc as [Hhd _].
      unfold claimed_raterId in Hhd. rewrite Hnull in Hhd. discriminate Hhd.
Qed.

Lemma export_prefers_session_rater_witness :
  let w := with_store (one_record (Str "r1")) "r2" (at_first blank_form) in
  raterId (state w) <> "" /\
  (exists r', r' ∈ ratings (part_000.exportJson "T" w)) /\
  forall r', r' ∈ ratings (part_000.exportJson "T" w) ->
             r' !! "raterId" = Some (Str "r2").
Proof.
  cbv zeta.
  assert (Hne : raterId (state (with_store (one_record (Str "r1")) "r2"
                                           (at_first blank_form))) <> "")
    by discriminate.
  split; [exact Hne|].
  destruct (export_prefers_session_rater "T"
              (with_store (one_record (Str "r1")) "r2" (at_first blank_form)))
    as [(_ & _ & _ & _ & _ & Hin & Hsess) _].
  split.
  - eexists. apply Hin. eexists "1|", _. split; [|reflexivity].
    apply lookup_singleton_eq.
  - intros r' Hr'. exact (Hsess r' Hr' Hne).
Defined.

(** C2, at a failing input.  The dataset holds two items without [id].
    The key of the second with its position as fallback is "1|b".  It is
    labelled in full while under the cursor and stored under that key;
    progress is 1 of 2.  The rater steps back to the first item, whose
    untouched form is autosaved: the loop now derives "0|b" for the
    second item, at position 1, finds no record and reports 0 of 2,
    although the complete record is still in the store. *)
Theorem progress_key_falls_back_to_cursor :
  makeKey 1 item_b = "1|b" /\
  observe labelled_second
    (fun w => (isComplete_true (ratingsById (state w) !! "1|b"), progressText w))
    = Normal (true, "1/2 labelled") /\
  observe stepped_back index = Normal 0%Z /\
  observe autosaved_first
    (fun w => (dataset w !! 1, makeKey (index w) item_b))
    = Normal (Some item_b, "0|b") /\
  observe autosaved_first
    (fun w => (isComplete_true (ratingsById (state w) !! "1|b"),
               ratingsById (state w) !! "0|b"))
    = Normal (true, None) /\
  (w ← autosaved_first; progress w)
    = Normal {| done := 0; total := 2; pct := of_Z 0 |} /\
  observe autosaved_first progressText = Normal "0/2 labelled".
Proof.
  repeat split; vm_compute; reflexivity.
Qed.

End examples.

(** ** More about the two scripts *)

Section more_facts.
Import JS Common Spec.
Context {dom : Page} {json : Builtins.Json}.

(** *** Loading a dataset *)

Lemma setDataset_effect (items : list value) (w : Env) :
  exists f t p,
    part_000.setDataset items w =
      Normal (set_progress t p
                (set_form f (set_index 0 (set_dataset (List.map sanitizeItem items) w)))).
Proof.
  unfold part_000.setDataset.
  set (w1 := set_index 0 (set_dataset (List.map sanitizeItem items) w)).
  assert (Hr : exists f, part_000.render w1 = Normal (set_form f w1)).
  { destruct items as [|x items].
    - unfold part_000.render. cbn. eauto.
    - apply render_in_range. unfold cursor_in_range. cbn. lia. }
  destruct Hr as [f ->]. cbn [mbind completion_bind].
  destruct (updateProgress_normal (set_form f w1)) as (t & p & ->). eauto.
Qed.

Lemma legacy_setDataset_effect (items : list value) (w : Env) :
  exists f t p,
    script_js.setDataset items w =
      Normal (set_progress t p
                (set_form f (set_index 0 (set_dataset (List.map sanitizeItem items) w)))).
Proof.
  unfold script_js.setDataset.
  set (w1 := set_index 0 (set_dataset (List.map sanitizeItem items) w)).
  assert (Hr : exists f, script_js.render w1 = Normal (set_form f w1)).
  { destruct items as [|x items].
    - unfold script_js.render. cbn. eauto.
    - apply legacy_render_in_range. unfold cursor_in_range. cbn. lia. }
  destruct Hr as [f ->]. cbn [mbind completion_bind].
  destruct (updateProgress_normal (set_form f w1)) as (t & p & ->). eauto.
Qed.

Lemma sanitizeItem_sanitized (x : value) : sanitized (sanitizeItem x).
Proof.
  split.
  - rewrite sanitizeItem_content.
    destruct (spread x !! "content") as [[| | | s | |]|]; eauto.
  - rewrite sanitizeItem_transcription.
    destruct (spread x !! "transcription") as [[| | | s | |]|]; eauto.
Qed.

(** *** What the handlers keep *)

Lemma savePartialProgress_keeps (now : string) (w : Env) :
  invariant w -> storage_synced w ->
  exists w',
    part_000.savePartialProgress now w = Normal w' /\
    dataset w' = dataset w /\ index w' = index w /\
    invariant w' /\ storage_synced w'.
Proof.
  intros Hinv Hsync.
  destruct (savePartialProgress_invariant now w Hinv) as (w' & Hs & Hd & Hi & Hinv').
  exists w'. repeat (split; [assumption|]).
  destruct Hinv as ([He | Hr] & _).
  - rewrite savePartialProgress_no_dataset in Hs by exact He.
    injection Hs as <-. exact Hsync.
  - destruct (cursor_in_range_item w Hr) as [item Hitem].
    destruct (savePartialProgress_written now w item Hitem) as (t & p & Hw).
    rewrite Hw in Hs. injection Hs as <-. reflexivity.
Qed.

Lemma go_keeps (delta : Z) (w : Env) :
  invariant w -> storage_synced w ->
  exists w', part_000.go delta w = Normal w' /\ invariant w' /\ storage_synced w'.
Proof.
  intros Hinv Hsync.
  destruct (go_invariant delta w Hinv) as (w' & Hg & Hinv').
  exists w'. split; [exact Hg|]. split; [exact Hinv'|].
  destruct Hinv as ([He | Hr] & _).
  - unfold part_000.go in Hg. rewrite He in Hg. injection Hg as <-. exact Hsync.
  - destruct (go_moves delta w Hr) as (w2 & Hg2 & _ & _ & Hst & Hls).
    rewrite Hg2 in Hg. injection Hg as <-.
    unfold storage_synced in *. rewrite Hls, Hst. exact Hsync.
Qed.

Lemma setDataset_keeps (items : list value) (w : Env) :
  invariant w -> storage_synced w ->
  exists w',
    part_000.setDataset items w = Normal w' /\ invariant w' /\ storage_synced w'.
Proof.
  intros (_ & Hb & Hcur) Hsync.
  destruct (setDataset_invariant items w (conj Hb Hcur)) as (w' & Hs & Hinv').
  exists w'. split; [exact Hs|]. split; [exact Hinv'|].
  destruct (setDataset_effect items w) as (f & t & p & He).
  rewrite He in Hs. injection Hs as <-. exact Hsync.
Qed.

(** X1. From a state in which the cursor is valid, the stored records
    are records of the tool carrying the session's rater id, and the
    durable entry mirrors the state, every handler of [part_000] returns
    (none reads a property of [undefined]) and leaves a state of which
    the same holds. *)
Theorem handlers_return_and_keep_invariant (e : part_000.event) (w : Env) :
  invariant w -> storage_synced w ->
  exists w',
    part_000.handle e w = Normal w' /\ invariant w' /\ storage_synced w'.
Proof.
  intros Hinv Hsync.
  destruct e as [f | now | now | now | now val | now | now | v | items];
    cbn [part_000.handle].
  - eexists. split; [reflexivity|]. split; [exact Hinv|exact Hsync].
  - destruct (savePartialProgress_keeps now w Hinv Hsync)
      as (w1 & -> & _ & _ & H1 & S1).
    apply go_keeps; assumption.
  - destruct (savePartialProgress_keeps now w Hinv Hsync)
      as (w1 & -> & _ & _ & H1 & S1).
    apply go_keeps; assumption.
  - destruct (savePartialProgress_keeps now
                (set_form (part_000.clearForm (form w)) w) Hinv Hsync)
      as (w1 & Hs & _ & _ & H1 & S1). eauto.
  - unfold part_000.jumpBtn_click. destruct val as [val|].
    2:{ eexists. split; [reflexivity|]. split; assumption. }
    destruct ((0 <=? val - 1)%Z && (val - 1 <? Z.of_nat (length (dataset w)))%Z)
      eqn:Hrange.
    2:{ eexists. split; [reflexivity|]. split; assumption. }
    apply andb_true_iff in Hrange as [Hlo Hhi].
    apply Z.leb_le in Hlo. apply Z.ltb_lt in Hhi.
    destruct (savePartialProgress_keeps now w Hinv Hsync)
      as (w1 & -> & Hd & _ & (_ & Hb & Hcur) & S1).
    cbn [mbind completion_bind].
    destruct (render_invariant (set_index (val - 1) w1)) as (f & -> & Hinv').
    { split; [|split; assumption].
      right. unfold cursor_in_range. cbn. rewrite Hd. lia. }
    eexists. split; [reflexivity|]. split; [exact Hinv'|exact S1].
  - destruct (savePartialProgress_keeps now w Hinv Hsync)
      as (w1 & Hs & _ & _ & H1 & S1). eauto.
  - destruct (is_checked (tooShortCheckbox (form w)));
      [destruct (savePartialProgress_keeps now
                   (set_form (form_reset (form w)) w) Hinv Hsync)
         as (w1 & Hs & _ & _ & H1 & S1)
      |destruct (savePartialProgress_keeps now w Hinv Hsync)
         as (w1 & Hs & _ & _ & H1 & S1)]; eauto.
  - destruct (handle_invariant (part_000.raterIdInput v) w Hinv)
      as (w' & Hh & Hinv').
    exists w'. split; [exact Hh|]. split; [exact Hinv'|].
    cbn in Hh. injection Hh as <-.
    apply (raterIdInput_input_effect v w).
  - apply setDataset_keeps; assumption.
Qed.

(** X2. The last statements of [part_000] return, whatever the durable
    entry holds (as long as its records are records of the tool): the
    dataset is empty, the cursor 0, every record carries the session's
    rater id, and the durable entry mirrors the state. *)
Theorem init_establishes_invariant (w : Env) :
  declared w ->
  (forall parsed, localStorage w = Some parsed ->
                  isComplete_boolean (ratingsById parsed)) ->
  exists w',
    part_000.init w = Normal w' /\
    dataset w' = [] /\ index w' = 0%Z /\
    invariant w' /\ storage_synced w'.
Proof.
  intros (_ & _ & Hst) Hstored.
  destruct (init_invariant w Hstored) as (w' & Hi & Hinv).
  { rewrite Hst. intros k r Hk. cbn in Hk. rewrite lookup_empty in Hk. discriminate. }
  exists w'. split; [exact Hi|].
  unfold part_000.init in Hi.
  destruct (setDataset_effect []
              (saveState (part_000.propagateRaterIdAcrossRatings
                            (part_000.loadState w)))) as (f & t & p & He).
  rewrite He in Hi. injection Hi as <-.
  split; [reflexivity|]. split; [reflexivity|]. split; [exact Hinv|reflexivity].
Qed.

(** The propagation changes nothing when every record already carries
    the session's rater id. *)
Lemma propagate_fixed (w : Env) :
  carries_current w ->
  state (part_000.propagateRaterIdAcrossRatings w) = state w.
Proof.
  intros Hcur.
  assert (Hm : ratingsById (state (part_000.propagateRaterIdAcrossRatings w)) =
               ratingsById (state w)).
  { rewrite propagate_stamps_all. apply map_eq. intros k. rewrite lookup_fmap.
    destruct (ratingsById (state w) !! k) as [r|] eqn:Hr; [|reflexivity].
    cbn. f_equal. unfold stamp. apply insert_id, (Hcur _ _ Hr). }
  destruct (state w) as [m id] eqn:Hs.
  unfold part_000.propagateRaterIdAcrossRatings in *. cbn in *.
  rewrite Hs in *. cbn in *. rewrite Hm. reflexivity.
Qed.

(** X3. Reloading the page loses nothing: when the durable entry mirrors
    the state (and, for [part_000], the records carry the session's
    rater id), the script started afresh on that entry ends with the
    same rating store and rater id, an empty dataset and the cursor at
    0. *)
Theorem reload_restores_state (w w0 : Env) :
  storage_synced w -> localStorage w0 = localStorage w ->
  (carries_current w ->
   exists w', part_000.init w0 = Normal w' /\ state w' = state w /\
              localStorage w' = Some (state w) /\
              dataset w' = [] /\ index w' = 0%Z) /\
  (exists w', script_js.init w0 = Normal w' /\ state w' = state w /\
              localStorage w' = Some (state w) /\
              dataset w' = [] /\ index w' = 0%Z).
Proof.
  intros Hsync Hl. unfold storage_synced in Hsync.
  assert (Hload : state (part_000.loadState w0) = state w /\
                  localStorage (part_000.loadState w0) = Some (state w)).
  { unfold part_000.loadState. rewrite Hl, Hsync. split; [reflexivity|].
    cbn. rewrite Hl. exact Hsync. }
  destruct Hload as [Hls Hlo].
  split.
  - intros Hcur. unfold part_000.init.
    destruct (setDataset_effect []
                (saveState (part_000.propagateRaterIdAcrossRatings
                              (part_000.loadState w0)))) as (f & t & p & ->).
    eexists. split; [reflexivity|].
    assert (Hp : state (part_000.propagateRaterIdAcrossRatings
                          (part_000.loadState w0)) = state w).
    { rewrite propagate_fixed; [exact Hls|].
      unfold carries_current, current in *. rewrite Hls. exact Hcur. }
    split; [exact Hp|]. split; [rewrite <- Hp; reflexivity|]. split; reflexivity.
  - unfold script_js.init.
    destruct (legacy_setDataset_effect [] (script_js.loadState w0))
      as (f & t & p & ->).
    eexists. split; [reflexivity|].
    split; [exact Hls|]. split; [exact Hlo|]. split; reflexivity.
Qed.

(** *** Navigation *)

Lemma go_shape (delta : Z) (w : Env) :
  cursor_ok w ->
  part_000.go delta w = Normal w \/
  (cursor_in_range w /\
   exists f,
     part_000.go delta w =
       Normal (set_form f
                 (set_index (Z.min (Z.max (index w + delta) 0)
                                   (Z.of_nat (length (dataset w)) - 1)) w))).
Proof.
  intros [He | Hr]; unfold part_000.go.
  - rewrite He. left. reflexivity.
  - destruct (Nat.eqb (length (dataset w)) 0); [left; reflexivity|]. cbv zeta.
    destruct (Z.eqb_spec (Z.min (Z.max (index w + delta) 0)
                                (Z.of_nat (length (dataset w)) - 1)) (index w));
      [left; reflexivity|right].
    split; [exact Hr|].
    apply render_in_range. unfold cursor_in_range in *. cbn. lia.
Qed.

Lemma legacy_go_shape (delta : Z) (w : Env) :
  cursor_ok w ->
  script_js.go delta w = Normal w \/
  (cursor_in_range w /\
   exists f,
     script_js.go delta w =
       Normal (set_form f
                 (set_index (Z.min (Z.max (index w + delta) 0)
                                   (Z.of_nat (length (dataset w)) - 1)) w))).
Proof.
  intros [He | Hr]; unfold script_js.go.
  - rewrite He. left. reflexivity.
  - destruct (Nat.eqb (length (dataset w)) 0); [left; reflexivity|]. cbv zeta.
    destruct (Z.eqb_spec (Z.min (Z.max (index w + delta) 0)
                                (Z.of_nat (length (dataset w)) - 1)) (index w));
      [left; reflexivity|right].
    split; [exact Hr|].
    apply legacy_render_in_range. unfold cursor_in_range in *. cbn. lia.
Qed.

Lemma stepped_stay (delta : Z) (w : Env) : cursor_ok w -> stepped delta w w.
Proof.
  intros Hc. unfold stepped.
  repeat (split; [reflexivity || assumption|]). repeat split; lia.
Qed.

Lemma stepped_move (delta : Z) (w : Env) (f : Form) :
  cursor_in_range w ->
  stepped delta w
    (set_form f (set_index (Z.min (Z.max (index w + delta) 0)
                                  (Z.of_nat (length (dataset w)) - 1)) w)).
Proof.
  intros Hr. unfold stepped, cursor_ok, cursor_in_range in *. cbn.
  repeat (split; [reflexivity|]). split; [right; lia|]. repeat split; lia.
Qed.

(** X4. In both files [go] is read-only on everything but the cursor and
    the form: the dataset, the rating store, the rater id, the durable
    entry and the progress display are as before.  The cursor moves in
    the direction of [delta], by no more than [|delta|], and stays
    valid. *)
Theorem go_only_moves_the_cursor (delta : Z) (w : Env) :
  cursor_ok w ->
  (exists w', part_000.go delta w = Normal w' /\ stepped delta w w') /\
  (exists w', script_js.go delta w = Normal w' /\ stepped delta w w').
Proof.
  intros Hc. split.
  - destruct (go_shape delta w Hc) as [Hg | [Hr [f Hg]]].
    + exists w. split; [exact Hg|apply stepped_stay, Hc].
    + eexists. split; [exact Hg|apply stepped_move, Hr].
  - destruct (legacy_go_shape delta w Hc) as [Hg | [Hr [f Hg]]].
    + exists w. split; [exact Hg|apply stepped_stay, Hc].
    + eexists. split; [exact Hg|apply stepped_move, Hr].
Qed.

(** *** The jump button *)

(** X5. The jump button, in both files.  A number from 1 to the length
    of the dataset autosaves the form for the item under the cursor and
    puts the cursor on that number minus one, without an alert.  Any
    other number changes nothing and shows the alert; an input that is
    not a number changes nothing and shows none. *)
Theorem jump_lands_or_alerts (now : string) (val : Z) (w : Env) :
  cursor_ok w ->
  ((1 <= val <= Z.of_nat (length (dataset w)))%Z ->
   exists item,
     dataset_at (dataset w) (index w) = Some item /\
     (exists w', part_000.jumpBtn_click now (Some val) w = Normal (w', false) /\
                 index w' = (val - 1)%Z /\ dataset w' = dataset w /\
                 ratingsById (state w') !! makeKey (index w) item =
                   Some (part_000.partial_record now w item
                           (getFormValues (form w)))) /\
     (exists w', script_js.jumpBtn_click now (Some val) w = Normal (w', false) /\
                 index w' = (val - 1)%Z /\ dataset w' = dataset w /\
                 ratingsById (state w') !! makeKey (index w) item =
                   Some (script_js.partial_record now w item
                           (getFormValues (form w))))) /\
  (~ (1 <= val <= Z.of_nat (length (dataset w)))%Z ->
   part_000.jumpBtn_click now (Some val) w = Normal (w, true) /\
   script_js.jumpBtn_click now (Some val) w = Normal (w, true)) /\
  part_000.jumpBtn_click now None w = Normal (w, false) /\
  script_js.jumpBtn_click now None w = Normal (w, false).
Proof.
  intros Hc. split; [|split; [|split; reflexivity]].
  - intros Hval.
    assert (Hr : cursor_in_range w).
    { destruct Hc as [He | Hr]; [|exact Hr]. rewrite He in Hval. cbn in Hval. lia. }
    destruct (cursor_in_range_item w Hr) as [item Hitem].
    exists item. split; [exact Hitem|].
    assert (Hcond : (0 <=? val - 1)%Z &&
                    (val - 1 <? Z.of_nat (length (dataset w)))%Z = true).
    { apply andb_true_iff. split; [apply Z.leb_le|apply Z.ltb_lt]; lia. }
    split.
    + unfold part_000.jumpBtn_click. rewrite Hcond.
      destruct (savePartialProgress_written now w item Hitem) as (t & p & ->).
      cbn [mbind completion_bind].
      match goal with
      | |- context [part_000.render ?x] =>
          destruct (render_in_range x) as [f ->]
      end.
      { unfold cursor_in_range. cbn. lia. }
      eexists. split; [reflexivity|].
      cbn [index dataset state ratingsById set_form set_index set_progress
           saveState set_localStorage set_rating set_state].
      split; [reflexivity|]. split; [reflexivity|]. apply lookup_insert_eq.
    + unfold script_js.jumpBtn_click. rewrite Hcond.
      destruct (legacy_savePartialProgress_written now w item Hitem) as (t & p & ->).
      cbn [mbind completion_bind].
      match goal with
      | |- context [script_js.render ?x] =>
          destruct (legacy_render_in_range x) as [f ->]
      end.
      { unfold cursor_in_range. cbn. lia. }
      eexists. split; [reflexivity|].
      cbn [index dataset state ratingsById set_form set_index set_progress
           saveState set_localStorage set_rating set_state].
      split; [reflexivity|]. split; [reflexivity|]. apply lookup_insert_eq.
  - intros Hval.
    assert (Hcond : (0 <=? val - 1)%Z &&
                    (val - 1 <? Z.of_nat (length (dataset w)))%Z = false).
    { apply andb_false_iff.
      destruct (Z.leb_spec 0 (val - 1)); [right|left; reflexivity].
      apply Z.ltb_ge. lia. }
    unfold part_000.jumpBtn_click, script_js.jumpBtn_click. rewrite Hcond.
    split; reflexivity.
Qed.

(** *** What a save stores *)

Lemma upserted_insert (key : string) (rec : object) (w : Env) (t : string)
    (p : spec_float) :
  upserted key rec w (set_progress t p (saveState (set_rating key rec w))).
Proof.
  unfold upserted. cbn.
  split; [apply lookup_insert_eq|].
  split; [intros k Hk; apply lookup_insert_ne; congruence|].
  repeat split; reflexivity.
Qed.

(** X6. A save is an upsert of one record, in both files.  The autosave,
    and the strict save when it accepts the form, store their record
    under the key of the item under the cursor and write the state
    through to the durable entry; the records under all other keys, the
    rater id, the dataset, the cursor and the form are untouched. *)
Theorem save_upserts_one_record (now : string) (w : Env) (item : object) :
  dataset_at (dataset w) (index w) = Some item ->
  let key := makeKey (index w) item in
  let values := getFormValues (form w) in
  (exists w', part_000.savePartialProgress now w = Normal w' /\
              upserted key (part_000.partial_record now w item values) w w') /\
  (exists w', script_js.savePartialProgress now w = Normal w' /\
              upserted key (script_js.partial_record now w item values) w w') /\
  (ok (part_000.validate (form w) values) = true ->
   exists w', part_000.saveCurrent now w =
                Normal (w', {| ok := true; message := None |}) /\
              upserted key (part_000.strict_record now w item values) w w') /\
  (ok (script_js.validate values) = true ->
   exists w', script_js.saveCurrent now w =
                Normal (w', {| ok := true; message := None |}) /\
              upserted key (script_js.strict_record now w item values) w w').
Proof.
  intros Hitem key values. subst key values.
  split; [|split; [|split]].
  - destruct (savePartialProgress_written now w item Hitem) as (t & p & ->).
    eexists. split; [reflexivity|apply upserted_insert].
  - destruct (legacy_savePartialProgress_written now w item Hitem) as (t & p & ->).
    eexists. split; [reflexivity|apply upserted_insert].
  - intros Hv. destruct (saveCurrent_accepted now w item Hitem Hv) as (t & p & ->).
    eexists. split; [reflexivity|apply upserted_insert].
  - intros Hv.
    destruct (legacy_saveCurrent_cases now w item Hitem)
      as [[Hno _] | (t & p & ->)]; [congruence|].
    eexists. split; [reflexivity|apply upserted_insert].
Qed.

Lemma partial_record_isComplete_validate (now : string) (w : Env)
    (item : object) (values : FormValues) :
  part_000.partial_record now w item values !! "isComplete" =
    Some (Bool (ok (part_000.validate (form w) values))).
Proof.
  unfold part_000.partial_record, part_000.validate.
  destruct (is_checked (tooShortCheckbox (form w))),
           (String.eqb (category values) ""),
           (String.eqb (valence values) ""),
           (needsSub values),
           (String.eqb (subcategory values) ""); vm_compute; reflexivity.
Qed.

Lemma legacy_partial_record_isComplete_validate (now : string) (w : Env)
    (item : object) (values : FormValues) :
  script_js.partial_record now w item values !! "isComplete" =
    Some (Bool (ok (script_js.validate values))).
Proof.
  unfold script_js.partial_record, script_js.validate.
  destruct (String.eqb (category values) ""),
           (String.eqb (valence values) ""),
           (needsSub values),
           (String.eqb (subcategory values) ""); vm_compute; reflexivity.
Qed.

Lemma counted_after_insert (w : Env) (item rec : object) (t : string)
    (p : spec_float) :
  counted (set_progress t p (saveState (set_rating (makeKey (index w) item) rec w)))
          item = truthy (rec !! "isComplete").
Proof.
  unfold counted.
  cbn [state ratingsById index set_progress saveState set_localStorage
       set_rating set_state].
  rewrite lookup_insert_eq. reflexivity.
Qed.

(** X7. The two notions of completion agree, in both files: the
    [isComplete] the autosave stores is [true] exactly when [validate]
    accepts the same form, and after the autosave the progress loop
    counts the item under the cursor exactly then. *)
Theorem autosave_complete_iff_strict_accepts (now : string) (w : Env)
    (item : object) :
  dataset_at (dataset w) (index w) = Some item ->
  let values := getFormValues (form w) in
  (part_000.partial_record now w item values !! "isComplete" =
     Some (Bool (ok (part_000.validate (form w) values))) /\
   exists w', part_000.savePartialProgress now w = Normal w' /\
              counted w' item = ok (part_000.validate (form w) values)) /\
  (script_js.partial_record now w item values !! "isComplete" =
     Some (Bool (ok (script_js.validate values))) /\
   exists w', script_js.savePartialProgress now w = Normal w' /\
              counted w' item = ok (script_js.validate values)).
Proof.
  intros Hitem values. subst values. split; split.
  - apply partial_record_isComplete_validate.
  - destruct (savePartialProgress_written now w item Hitem) as (t & p & ->).
    eexists. split; [reflexivity|].
    rewrite counted_after_insert, partial_record_isComplete_validate. reflexivity.
  - apply legacy_partial_record_isComplete_validate.
  - destruct (legacy_savePartialProgress_written now w item Hitem) as (t & p & ->).
    eexists. split; [reflexivity|].
    rewrite counted_after_insert, legacy_partial_record_isComplete_validate.
    reflexivity.
Qed.

(** X8. When the strict save accepts the form, the record it stores is
    the record of the autosave without [isComplete] (in [script.js] also
    without [flagged]): the two saves agree on every other property. *)
Theorem strict_record_is_partial_record_without_isComplete (now : string)
    (w : Env) (item : object) (values : FormValues) :
  (ok (part_000.validate (form w) values) = true ->
   part_000.partial_record now w item values =
     <["isComplete" := Bool true]> (part_000.strict_record now w item values)) /\
  (ok (script_js.validate values) = true ->
   script_js.partial_record now w item values =
     <["isComplete" := Bool true]>
       (<["flagged" := Bool (is_checked (flagCheckbox (form w)))]>
          (script_js.strict_record now w item values))).
Proof.
  split.
  - unfold part_000.validate, part_000.partial_record, part_000.strict_record,
      str_or_null.
    destruct (is_checked (tooShortCheckbox (form w))),
             (String.eqb (category values) ""),
             (String.eqb (valence values) ""),
             (needsSub values),
             (String.eqb (subcategory values) "");
      cbn [ok andb orb negb]; intros Hok; try discriminate Hok;
      (rewrite <- list_to_map_cons; apply list_to_map_proper;
       [apply (bool_decide_unpack _); vm_compute; reflexivity
       | symmetry;
         apply (Permutation_middle
                  (_ :: _ :: _ :: _ :: _ :: _ :: _ :: _ :: _ :: _ :: []) _ _)]).
  - unfold script_js.validate, script_js.partial_record, script_js.strict_record,
      str_or_null.
    destruct (String.eqb (category values) ""),
             (String.eqb (valence values) ""),
             (needsSub values),
             (String.eqb (subcategory values) "");
      cbn [ok andb orb negb]; intros Hok; try discriminate Hok;
      (rewrite <- !list_to_map_cons; apply list_to_map_proper;
       [apply (bool_decide_unpack _); vm_compute; reflexivity
       | solve_Permutation]).
Qed.

(** *** Progress *)

Lemma counted_with_id (w : Env) (j : Z) (item : object) :
  has_id item -> counted (set_index j w) item = counted w item.
Proof.
  intros (v & Hid & Hv). unfold counted.
  change (index (set_index j w)) with j.
  rewrite (makeKey_with_id j (index w) item v Hid Hv). reflexivity.
Qed.

(** X9. The progress computation never reports more items done than
    there are, and reports none when the store is empty.  When every
    item of the dataset has an id, it gives the same numbers wherever
    the cursor is. *)
Theorem progress_bounded_and_cursor_free (w : Env) :
  exists p,
    progress w = Normal p /\
    done p <= total p /\
    (ratingsById (state w) = ∅ -> done p = 0) /\
    ((forall item, item ∈ dataset w -> has_id item) ->
     forall j, progress (set_index j w) = Normal p).
Proof.
  eexists. split; [apply progress_normal|]. cbn [done total].
  split; [apply List.filter_length_le|]. split.
  - intros Hempty.
    rewrite (filter_ext_in (counted w) (fun _ => false)).
    + induction (dataset w); [reflexivity|assumption].
    + intros item _. unfold counted. rewrite Hempty, lookup_empty. reflexivity.
  - intros Hids j. rewrite progress_normal.
    change (dataset (set_index j w)) with (dataset w).
    rewrite (filter_ext_in (counted (set_index j w)) (counted w)); [reflexivity|].
    intros item Hin. apply counted_with_id, Hids, list_elem_of_In, Hin.
Qed.

(** *** Loading a dataset, continued *)

Lemma loaded_from_setDataset (items : list value) (w : Env) (f : Form) :
  exists w',
    updateProgress
      (set_form f (set_index 0 (set_dataset (List.map sanitizeItem items) w))) =
      Normal w' /\
    loaded_from items w w'.
Proof.
  unfold updateProgress. rewrite progress_normal. cbn [mbind completion_bind].
  eexists. split; [reflexivity|]. unfold loaded_from.
  split; [reflexivity|]. split.
  - cbn [dataset set_progress set_form set_index set_dataset].
    apply Forall_forall. intros item Hin.
    apply list_elem_of_In, in_map_iff in Hin as (x & <- & _).
    apply sanitizeItem_sanitized.
  - split; [reflexivity|]. split; [reflexivity|]. split; [reflexivity|].
    cbn [progressText set_progress done total dataset set_form set_index
         set_dataset].
    rewrite length_map. reflexivity.
Qed.

Lemma setDataset_loaded (items : list value) (w : Env) :
  (exists w', part_000.setDataset items w = Normal w' /\ loaded_from items w w') /\
  (exists w', script_js.setDataset items w = Normal w' /\ loaded_from items w w').
Proof.
  split.
  - unfold part_000.setDataset.
    set (w1 := set_index 0 (set_dataset (List.map sanitizeItem items) w)).
    assert (Hr : exists f, part_000.render w1 = Normal (set_form f w1)).
    { destruct items as [|x items].
      - unfold part_000.render. cbn. eauto.
      - apply render_in_range. unfold cursor_in_range. cbn. lia. }
    destruct Hr as [f ->]. cbn [mbind completion_bind].
    apply loaded_from_setDataset.
  - unfold script_js.setDataset.
    set (w1 := set_index 0 (set_dataset (List.map sanitizeItem items) w)).
    assert (Hr : exists f, script_js.render w1 = Normal (set_form f w1)).
    { destruct items as [|x items].
      - unfold script_js.render. cbn. eauto.
      - apply legacy_render_in_range. unfold cursor_in_range. cbn. lia. }
    destruct Hr as [f ->]. cbn [mbind completion_bind].
    apply loaded_from_setDataset.
Qed.

(** X10. Loading a text, in both files, never raises.  When the text,
    with its bare [NaN] tokens rewritten, parses to an array, the dataset
    becomes the array's elements sanitised, in order, and the cursor 0,
    with no alert; the ratings, the rater id and the durable entry are
    kept, and the progress shown is that of the new dataset against the
    ratings already stored.  In every other case (no parse, or a value
    that is not an array) nothing changes and the alert is shown. *)
Theorem load_replaces_dataset_or_alerts (text : string) (w : Env) :
  (forall items,
     Builtins.JSON_parse (Builtins.replace_NaN text) = Some (Arr items) ->
     (exists w', part_000.load_text text w = Normal (w', false) /\
                 loaded_from items w w') /\
     (exists w', script_js.load_text text w = Normal (w', false) /\
                 loaded_from items w w')) /\
  ((forall items,
      Builtins.JSON_parse (Builtins.replace_NaN text) <> Some (Arr items)) ->
   part_000.load_text text w = Normal (w, true) /\
   script_js.load_text text w = Normal (w, true)).
Proof.
  split.
  - intros items Hparse.
    unfold part_000.load_text, script_js.load_text. rewrite Hparse.
    destruct (setDataset_loaded items w) as [(w1 & -> & H1) (w2 & -> & H2)].
    split; eexists; (split; [reflexivity|assumption]).
  - intros Hno. unfold part_000.load_text, script_js.load_text.
    destruct (Builtins.JSON_parse (Builtins.replace_NaN text)) as [[| | | | items |]|];
      try (split; reflexivity).
    exfalso. apply (Hno items). reflexivity.
Qed.

(** *** The rater id, continued *)

Lemma Env_ext (a b : Env) :
  dataset a = dataset b -> index a = index b -> state a = state b ->
  localStorage a = localStorage b -> form a = form b ->
  progressText a = progressText b -> progressBar a = progressBar b -> a = b.
Proof.
  destruct a, b. cbn. intros. subst. reflexivity.
Qed.

Lemma stamp_over (c1 c2 : value) (m : gmap string object) :
  stamp c2 <$> (stamp c1 <$> m) = stamp c2 <$> m.
Proof.
  rewrite <- map_fmap_compose. apply map_fmap_ext. intros k r _.
  unfold compose, stamp. apply insert_insert_eq.
Qed.

(** X11. The rater id is a single value, not a history: typing one id
    and then another leaves exactly the state that typing the second
    alone would have left (in particular typing the same id twice is
    typing it once), in both files. *)
Theorem last_rater_id_wins (v1 v2 : string) (w : Env) :
  part_000.raterIdInput_input v2 (part_000.raterIdInput_input v1 w) =
    part_000.raterIdInput_input v2 w /\
  script_js.raterIdInput_input v2 (script_js.raterIdInput_input v1 w) =
    script_js.raterIdInput_input v2 w.
Proof.
  split; [|reflexivity].
  destruct (raterIdInput_input_effect v2 (part_000.raterIdInput_input v1 w))
    as (Hid2 & Hst2 & Hls2 & Hd2 & Hi2).
  destruct (raterIdInput_input_effect v1 w) as (_ & Hst1 & _ & Hd1 & Hi1).
  destruct (raterIdInput_input_effect v2 w) as (Hid & Hst & Hls & Hd & Hi).
  assert (Hstate : state (part_000.raterIdInput_input v2
                            (part_000.raterIdInput_input v1 w)) =
                   state (part_000.raterIdInput_input v2 w)).
  { destruct (state (part_000.raterIdInput_input v2
                       (part_000.raterIdInput_input v1 w))) as [m2 id2].
    destruct (state (part_000.raterIdInput_input v2 w)) as [m id].
    cbn in *. subst. rewrite Hst1, stamp_over. reflexivity. }
  apply Env_ext; try reflexivity; [exact Hstate|].
  rewrite Hls2, Hls, Hstate. reflexivity.
Qed.

(** X12. In a state where every record carries the session's rater id,
    as every state [part_000] reaches does, the stamping in its export is
    without effect: the export lists the records as they are stored, and
    its payload has the rater id, the dataset size and the ratings of the
    payload of [script.js].  The two payloads differ in [createdAt]
    only, which each file takes from its own reading of the clock. *)
Theorem export_of_stamped_store_is_plain (now now' : string) (w : Env) :
  carries_current w ->
  ratings (part_000.exportJson now w) = Object_values (ratingsById (state w)) /\
  ratings (part_000.exportJson now w) = ratings (script_js.exportJson now' w) /\
  payload_raterId (part_000.exportJson now w) =
    payload_raterId (script_js.exportJson now' w) /\
  datasetSize (part_000.exportJson now w) =
    datasetSize (script_js.exportJson now' w) /\
  createdAt (part_000.exportJson now w) = now /\
  createdAt (script_js.exportJson now' w) = now'.
Proof.
  intros Hcur.
  pose proof (export_of_stamped_store now w Hcur) as Hr.
  split; [exact Hr|]. split; [rewrite Hr; reflexivity|].
  repeat split.
Qed.

(** *** Keys, continued *)

Lemma append_cons (c : ascii) (a s : string) :
  String c a +:+ s = String c (a +:+ s).
Proof. reflexivity. Qed.

Lemma append_empty (s : string) : EmptyString +:+ s = s.
Proof. reflexivity. Qed.

Lemma bar_free_pretty_N_go (x : N) (s : string) :
  bar_free s = true -> bar_free (pretty_N_go x s) = true.
Proof.
  revert s. induction (N.lt_wf_0 x) as [x _ IH]. intros s Hs.
  assert (x = 0 \/ 0 < x)%N as [-> | Hpos] by lia.
  - exact Hs.
  - rewrite pretty_N_go_step by exact Hpos. apply IH.
    + apply N.div_lt; [exact Hpos|reflexivity].
    + cbn [bar_free]. rewrite Hs.
      unfold pretty_N_char. repeat case_match; reflexivity.
Qed.

Lemma bar_free_pretty_N (x : N) : bar_free (pretty x) = true.
Proof.
  unfold pretty, pretty_N. case_decide; [reflexivity|].
  apply bar_free_pretty_N_go. reflexivity.
Qed.

Lemma bar_free_pretty_Z (z : Z) : bar_free (pretty z) = true.
Proof.
  destruct z as [|x|x]; [reflexivity| |].
  - apply (bar_free_pretty_N (N.pos x)).
  - change (pretty (Z.neg x)) with ("-" +:+ pretty (N.pos x)).
    rewrite append_cons, append_empty. cbn [bar_free].
    apply (bar_free_pretty_N (N.pos x)).
Qed.

Lemma bar_split (a b s t : string) :
  bar_free a = true -> bar_free b = true ->
  a +:+ "|" +:+ s = b +:+ "|" +:+ t -> a = b /\ s = t.
Proof.
  revert b. induction a as [|c a IH]; intros [|d b] Ha Hb Heq;
    rewrite ?append_cons, ?append_empty in Heq; cbn [bar_free] in *.
  - injection Heq as ->. split; reflexivity.
  - injection Heq as <- _. discriminate Hb.
  - injection Heq as -> _. discriminate Ha.
  - injection Heq as -> Heq.
    apply andb_true_iff in Ha as [_ Ha]. apply andb_true_iff in Hb as [_ Hb].
    destruct (IH b Ha Hb Heq) as [-> ->]. split; reflexivity.
Qed.

(** X13. Keys tell items apart as far as the bar allows.  When what is
    printed before the bar has no bar in it (always so for a number, and
    so for the cursor), two keys are equal only if both parts are: the
    printed ids and the printed uids ([null] and a missing uid printing
    as the empty text).  In particular two items whose ids are safe
    integers, which the script holds exactly and prints in full, share a
    key exactly when they have the same id and the same printed uid. *)
Theorem keys_separate_bar_free_ids (i j : Z) (x y : object) :
  (bar_free (key_id i x) = true -> bar_free (key_id j y) = true ->
   (makeKey i x = makeKey j y <->
    key_id i x = key_id j y /\ key_uid x = key_uid y)) /\
  (forall a b, safe_integer a -> safe_integer b ->
     x !! "id" = Some (Num a) -> y !! "id" = Some (Num b) ->
     (makeKey i x = makeKey j y <-> a = b /\ key_uid x = key_uid y)).
Proof.
  assert (Hgen : bar_free (key_id i x) = true -> bar_free (key_id j y) = true ->
                 (makeKey i x = makeKey j y <->
                  key_id i x = key_id j y /\ key_uid x = key_uid y)).
  { intros Hx Hy. unfold makeKey. fold (key_id i x) (key_id j y) (key_uid x) (key_uid y).
    split.
    - apply bar_split; assumption.
    - intros [-> ->]. reflexivity. }
  split; [exact Hgen|].
  intros a b _ _ Ha Hb.
  assert (Hka : key_id i x = pretty a) by (unfold key_id; rewrite Ha; reflexivity).
  assert (Hkb : key_id j y = pretty b) by (unfold key_id; rewrite Hb; reflexivity).
  rewrite Hgen by (rewrite ?Hka, ?Hkb; apply bar_free_pretty_Z).
  rewrite Hka, Hkb. split.
  - intros [Hp Hu]. split; [apply (inj pretty), Hp|exact Hu].
  - intros [-> Hu]. split; [reflexivity|exact Hu].
Qed.

(** *** The background colour *)

(** X14. For every whole percentage from 0 to 100 the blended colour has
    three integral channels, each between its value in the base colour
    (15, 18, 22) and its value in the pink (171, 0, 120); it is the base
    colour at 0 and the pink at 100, and from one percent to the next red
    and blue do not fall and green does not rise. *)
Theorem blended_colour_between_base_and_pink (p : Z) :
  (0 <= p <= 100)%Z ->
  (exists r g b,
     channels p = [Some r; Some g; Some b] /\
     (15 <= r <= 171)%Z /\ (0 <= g <= 18)%Z /\ (22 <= b <= 120)%Z) /\
  channels 0 = [Some 15; Some 18; Some 22]%Z /\
  channels 100 = [Some 171; Some 0; Some 120]%Z /\
  (p < 100 -> blend_step p = true)%Z.
Proof.
  intros Hp.
  assert (Hall : forallb blend_in_range (seqZ 0 101) = true)
    by (vm_compute; reflexivity).
  assert (Hsteps : forallb blend_step (seqZ 0 100) = true)
    by (vm_compute; reflexivity).
  split; [|split; [vm_compute; reflexivity|split; [vm_compute; reflexivity|]]].
  - assert (Hin : In p (seqZ 0 101)) by (apply list_elem_of_In, elem_of_seqZ; lia).
    pose proof (proj1 (forallb_forall _ _) Hall p Hin) as Hok.
    unfold blend_in_range in Hok.
    destruct (channels p) as [|[r|] [|[g|] [|[b|] [|? ?]]]]; cbn in Hok;
      try discriminate Hok;
      repeat match goal with
             | H : _ && _ = true |- _ => apply andb_true_iff in H as [? ?]
             end;
      try match goal with
          | H : false = true |- _ => discriminate H
          end.
    exists r, g, b. split; [reflexivity|].
    repeat match goal with
           | H : (_ <=? _)%Z = true |- _ => apply Z.leb_le in H
           end.
    lia.
  - intros Hlt.
    assert (Hin : In p (seqZ 0 100)) by (apply list_elem_of_In, elem_of_seqZ; lia).
    exact (proj1 (forallb_forall _ _) Hsteps p Hin).
Qed.

(** *** Rewriting the bare NaN tokens *)

Section rewriting.
Import Builtins.

Lemma replace_NaN_from_cons (b : bool) (c : ascii) (s1 : string) :
  replace_NaN_from b (String c s1) =
    if negb b && starts_NaN (String c s1)
    then "null" +:+ replace_NaN_from true (behind_NaN (String c s1))
    else String c (replace_NaN_from (is_word c) s1).
Proof. destruct s1 as [|c2 [|c3 rest]], b; reflexivity. Qed.

Lemma starts_NaN_other (c : ascii) (s1 : string) :
  Ascii.eqb c "N" = false -> starts_NaN (String c s1) = false.
Proof. intros Hc. destruct s1 as [|c2 [|c3 rest]]; cbn; rewrite ?Hc; reflexivity. Qed.

Lemma replace_NaN_from_other (b : bool) (c : ascii) (s1 : string) :
  Ascii.eqb c "N" = false ->
  replace_NaN_from b (String c s1) = String c (replace_NaN_from (is_word c) s1).
Proof.
  intros Hc. rewrite replace_NaN_from_cons, (starts_NaN_other c s1 Hc).
  rewrite andb_false_r. reflexivity.
Qed.

Lemma replace_NaN_from_word (s : string) :
  replace_NaN_from true s =
    match s with
    | EmptyString => EmptyString
    | String c s1 => String c (replace_NaN_from (is_word c) s1)
    end.
Proof. destruct s as [|c s1]; [reflexivity|]. apply replace_NaN_from_cons. Qed.

Lemma no_word_ahead_replaced (s : string) :
  no_word_ahead (replace_NaN_from true s) = no_word_ahead s.
Proof. rewrite replace_NaN_from_word. destruct s; reflexivity. Qed.

(** Whether a match starts at a character does not change when the text
    behind that character is rewritten. *)
Lemma starts_NaN_replaced (c : ascii) (s1 : string) :
  starts_NaN (String c (replace_NaN_from (is_word c) s1)) =
    starts_NaN (String c s1).
Proof.
  destruct (Ascii.eqb c "N") eqn:Hc.
  2:{ rewrite !starts_NaN_other by exact Hc. reflexivity. }
  apply Ascii.eqb_eq in Hc as ->.
  change (is_word "N") with true. rewrite replace_NaN_from_word.
  destruct s1 as [|c2 s2]; [reflexivity|].
  destruct (Ascii.eqb c2 "a") eqn:Hc2.
  2:{ destruct (replace_NaN_from (is_word c2) s2) as [|? ?], s2 as [|? ?];
        cbn; rewrite ?Hc2; reflexivity. }
  apply Ascii.eqb_eq in Hc2 as ->.
  change (is_word "a") with true. rewrite replace_NaN_from_word.
  destruct s2 as [|c3 rest]; [reflexivity|].
  destruct (Ascii.eqb c3 "N") eqn:Hc3.
  2:{ cbn. rewrite Hc3. reflexivity. }
  apply Ascii.eqb_eq in Hc3 as ->.
  change (is_word "N") with true.
  cbn [starts_NaN]. rewrite no_word_ahead_replaced. reflexivity.
Qed.

Lemma replace_NaN_from_null (b : bool) (s : string) :
  replace_NaN_from b ("null" +:+ s) = "null" +:+ replace_NaN_from true s.
Proof.
  rewrite !append_cons, append_empty.
  rewrite !replace_NaN_from_other by reflexivity. reflexivity.
Qed.

Lemma behind_NaN_length (c : ascii) (s1 : string) :
  String.length (behind_NaN (String c s1)) <= String.length s1.
Proof. destruct s1 as [|c2 [|c3 rest]]; cbn; lia. Qed.

Lemma replace_NaN_from_idempotent (n : nat) :
  forall (s : string) (b : bool),
    String.length s <= n ->
    replace_NaN_from b (replace_NaN_from b s) = replace_NaN_from b s.
Proof.
  induction n as [|n IH]; intros [|c s1] b Hlen; try reflexivity.
  - cbn in Hlen. lia.
  - cbn [String.length] in Hlen. rewrite (replace_NaN_from_cons b c s1).
    destruct (negb b && starts_NaN (String c s1)) eqn:Hm.
    + rewrite replace_NaN_from_null. f_equal. apply IH.
      pose proof (behind_NaN_length c s1). lia.
    + rewrite replace_NaN_from_cons, starts_NaN_replaced, Hm.
      f_equal. apply IH. lia.
Qed.

Lemma replace_NaN_from_without_N (s : string) (b : bool) :
  without_N s = true -> replace_NaN_from b s = s.
Proof.
  revert b. induction s as [|c s1 IH]; intros b Hs; [reflexivity|].
  cbn [without_N] in Hs. apply andb_true_iff in Hs as [Hc Hs].
  apply negb_true_iff in Hc.
  rewrite replace_NaN_from_other by exact Hc. f_equal. apply IH, Hs.
Qed.

Lemma replace_NaN_from_length (n : nat) :
  forall (s : string) (b : bool),
    String.length s <= n ->
    String.length s <= String.length (replace_NaN_from b s).
Proof.
  induction n as [|n IH]; intros [|c s1] b Hlen; try (cbn; lia).
  - cbn in Hlen. lia.
  - cbn [String.length] in Hlen. rewrite (replace_NaN_from_cons b c s1).
    destruct (negb b && starts_NaN (String c s1)) eqn:Hm.
    + apply andb_true_iff in Hm as [_ Hm].
      destruct s1 as [|c2 [|c3 rest]]; try discriminate Hm.
      rewrite !append_cons, append_empty. cbn [behind_NaN String.length].
      specialize (IH rest true). cbn [String.length] in Hlen. lia.
    + cbn [String.length]. specialize (IH s1 (is_word c)). lia.
Qed.

(** A bare NaN between a text that does not end in a word character and
    a text that does not start with one. *)
Lemma replace_NaN_from_around (n : nat) :
  forall (pre post : string) (b : bool),
    String.length pre <= n ->
    ends_without_word pre = true -> (pre = EmptyString -> b = false) ->
    no_word_ahead post = true ->
    replace_NaN_from b (pre +:+ "NaN" +:+ post) =
      replace_NaN_from b pre +:+ "null" +:+ replace_NaN_from true post.
Proof.
  induction n as [|n IH]; intros [|c pre1] post b Hlen Hend Hb Hpost.
  - rewrite (Hb eq_refl), append_empty, !append_cons, append_empty.
    rewrite replace_NaN_from_cons. cbn [negb andb starts_NaN behind_NaN].
    rewrite Hpost. reflexivity.
  - cbn in Hlen. lia.
  - rewrite (Hb eq_refl), append_empty, !append_cons, append_empty.
    rewrite replace_NaN_from_cons. cbn [negb andb starts_NaN behind_NaN].
    rewrite Hpost. reflexivity.
  - cbn [String.length] in Hlen. rewrite append_cons.
    rewrite (replace_NaN_from_cons b c pre1).
    rewrite (replace_NaN_from_cons b c (pre1 +:+ "NaN" +:+ post)).
    assert (Hsame : starts_NaN (String c (pre1 +:+ "NaN" +:+ post)) =
                    starts_NaN (String c pre1)).
    { destruct pre1 as [|c2 [|c3 [|c4 rest]]];
        rewrite ?append_cons, ?append_empty; cbn [starts_NaN ends_without_word] in *.
      - apply negb_true_iff in Hend.
        destruct (Ascii.eqb_spec c "N") as [-> |]; [discriminate Hend|reflexivity].
      - apply negb_true_iff in Hend.
        destruct (Ascii.eqb_spec c2 "a") as [-> |];
          [discriminate Hend|rewrite andb_false_r; reflexivity].
      - apply negb_true_iff in Hend.
        destruct (Ascii.eqb_spec c3 "N") as [-> |];
          [discriminate Hend|rewrite !andb_false_r; reflexivity].
      - reflexivity. }
    rewrite Hsame.
    destruct (negb b && starts_NaN (String c pre1)) eqn:Hm.
    + apply andb_true_iff in Hm as [_ Hm].
      destruct pre1 as [|c2 [|c3 rest]]; try discriminate Hm.
      change (String c2 (String c3 rest) +:+ "NaN" +:+ post)
        with (String c2 (String c3 (rest +:+ "NaN" +:+ post))).
      cbn [behind_NaN].
      assert (Hrest : rest <> EmptyString).
      { intros ->. cbn in Hm, Hend.
        repeat (apply andb_true_iff in Hm as [Hm ?]).
        match goal with
        | H : Ascii.eqb c3 "N" = true |- _ => apply Ascii.eqb_eq in H; subst c3
        end.
        discriminate Hend. }
      rewrite IH.
      * reflexivity.
      * cbn [String.length] in Hlen. lia.
      * destruct rest; [contradiction|exact Hend].
      * intros ->. contradiction.
      * exact Hpost.
    + rewrite (append_cons c (replace_NaN_from (is_word c) pre1)).
      f_equal. apply IH.
      * lia.
      * destruct pre1; [reflexivity|exact Hend].
      * intros ->. cbn in Hend. apply negb_true_iff, Hend.
      * exact Hpost.
Qed.

(** X15. The rewrite of the bare [NaN] tokens that precedes parsing, in
    both files.  Rewriting a rewritten text changes nothing; a text
    without a capital N is left as it is; the result is never shorter
    than the text; and a [NaN] that stands between a text not ending in
    a word character and a text not starting with one is replaced by
    [null] where it stands, whatever surrounds it, the inside of a
    quoted string included. *)
Theorem NaN_rewrite_is_idempotent_and_local (text pre post : string) :
  replace_NaN (replace_NaN text) = replace_NaN text /\
  (without_N text = true -> replace_NaN text = text) /\
  String.length text <= String.length (replace_NaN text) /\
  (ends_without_word pre = true -> no_word_ahead post = true ->
   replace_NaN (pre +:+ "NaN" +:+ post) =
     replace_NaN pre +:+ "null" +:+ replace_NaN_from true post).
Proof.
  unfold replace_NaN. split; [|split; [|split]].
  - apply (replace_NaN_from_idempotent (String.length text)). lia.
  - apply replace_NaN_from_without_N.
  - apply (replace_NaN_from_length (String.length text)). lia.
  - intros Hpre Hpost.
    apply (replace_NaN_from_around (String.length pre)); auto.
Qed.

End rewriting.

(** *** What the handlers of [script.js] keep *)

Lemma legacy_savePartialProgress_keeps (now : string) (w : Env) :
  legacy_invariant w ->
  exists w',
    script_js.savePartialProgress now w = Normal w' /\
    dataset w' = dataset w /\ index w' = index w /\ legacy_invariant w'.
Proof.
  intros [Hc Hb]. destruct Hc as [He | Hr].
  - exists w. rewrite legacy_savePartialProgress_no_dataset by exact He.
    repeat split; try reflexivity; [left; exact He|exact Hb].
  - destruct (cursor_in_range_item w Hr) as [item Hitem].
    destruct (legacy_savePartialProgress_written now w item Hitem) as (t & p & ->).
    eexists. split; [reflexivity|]. split; [reflexivity|]. split; [reflexivity|].
    split; [right; exact Hr|].
    intros k r Hk.
    cbn [state ratingsById set_progress saveState set_localStorage set_rating
         set_state] in Hk.
    apply lookup_insert_Some in Hk as [[_ <-] | [_ Hk]].
    + right. eexists. apply legacy_partial_record_isComplete_validate.
    + apply (Hb _ _ Hk).
Qed.

Lemma legacy_render_keeps (w : Env) :
  legacy_invariant w ->
  exists f, script_js.render w = Normal (set_form f w) /\
            legacy_invariant (set_form f w).
Proof.
  intros [Hc Hb].
  assert (Hn : exists f, script_js.render w = Normal (set_form f w)).
  { destruct Hc as [He | Hr]; [|apply legacy_render_in_range, Hr].
    unfold script_js.render. rewrite He. cbn. eauto. }
  destruct Hn as [f Hf]. exists f. split; [exact Hf|]. split; assumption.
Qed.

Lemma legacy_go_keeps (delta : Z) (w : Env) :
  legacy_invariant w ->
  exists w', script_js.go delta w = Normal w' /\ legacy_invariant w'.
Proof.
  intros [Hc Hb].
  destruct (legacy_go_shape delta w Hc) as [Hg | [Hr [f Hg]]].
  - exists w. split; [exact Hg|]. split; assumption.
  - eexists. split; [exact Hg|]. split; [|exact Hb].
    right. unfold cursor_in_range in *. cbn. lia.
Qed.

Lemma legacy_setDataset_keeps (items : list value) (w : Env) :
  isComplete_boolean (ratingsById (state w)) ->
  exists w', script_js.setDataset items w = Normal w' /\ legacy_invariant w'.
Proof.
  intros Hb. destruct (legacy_setDataset_effect items w) as (f & t & p & ->).
  eexists. split; [reflexivity|]. split; [|exact Hb].
  destruct items as [|x items]; [left; reflexivity|].
  right. unfold cursor_in_range. cbn. lia.
Qed.

(** X16. [script.js] keeps its cursor valid and its records records of
    the tool: its last statements return in such a state whatever the
    durable entry holds (as long as its records are records of the
    tool), and from such a state every handler returns (none reads a
    property of [undefined]) in such a state. *)
Theorem legacy_handlers_return_and_keep_invariant (e : script_js.event)
    (w : Env) :
  (legacy_invariant w ->
   exists w', script_js.handle e w = Normal w' /\ legacy_invariant w') /\
  ((forall parsed, localStorage w = Some parsed ->
                   isComplete_boolean (ratingsById parsed)) ->
   isComplete_boolean (ratingsById (state w)) ->
   exists w', script_js.init w = Normal w' /\ legacy_invariant w' /\
              dataset w' = [] /\ index w' = 0%Z).
Proof.
  split.
  - intros Hinv.
    destruct e as [f | now | now | now | now val | now | v | items];
      cbn [script_js.handle].
    + eexists. split; [reflexivity|exact Hinv].
    + destruct (legacy_savePartialProgress_keeps now w Hinv)
        as (w1 & -> & _ & _ & H1).
      apply legacy_go_keeps, H1.
    + destruct (legacy_savePartialProgress_keeps now w Hinv)
        as (w1 & -> & _ & _ & H1).
      apply legacy_go_keeps, H1.
    + destruct (legacy_savePartialProgress_keeps now
                  (set_form (script_js.clearForm (form w)) w) Hinv)
        as (w1 & Hs & _ & _ & H1). eauto.
    + unfold script_js.jumpBtn_click. destruct val as [val|].
      2:{ eexists. split; [reflexivity|exact Hinv]. }
      destruct ((0 <=? val - 1)%Z && (val - 1 <? Z.of_nat (length (dataset w)))%Z)
        eqn:Hrange.
      2:{ eexists. split; [reflexivity|exact Hinv]. }
      apply andb_true_iff in Hrange as [Hlo Hhi].
      apply Z.leb_le in Hlo. apply Z.ltb_lt in Hhi.
      destruct (legacy_savePartialProgress_keeps now w Hinv)
        as (w1 & -> & Hd & _ & (_ & Hb)).
      cbn [mbind completion_bind].
      destruct (legacy_render_keeps (set_index (val - 1) w1)) as (f & -> & Hinv').
      { split; [|exact Hb].
        right. unfold cursor_in_range. cbn. rewrite Hd. lia. }
      eexists. split; [reflexivity|exact Hinv'].
    + destruct (legacy_savePartialProgress_keeps now w Hinv)
        as (w1 & Hs & _ & _ & H1). eauto.
    + eexists. split; [reflexivity|]. exact Hinv.
    + apply legacy_setDataset_keeps. apply Hinv.
  - intros Hstored Hb. unfold script_js.init.
    destruct (legacy_setDataset_effect [] (script_js.loadState w))
      as (f & t & p & He).
    rewrite He. eexists. split; [reflexivity|].
    split; [|split; reflexivity].
    split; [left; reflexivity|].
    cbn [state set_progress set_form set_index set_dataset].
    unfold script_js.loadState. destruct (localStorage w) as [parsed|] eqn:Hl.
    + apply (Hstored parsed eq_refl).
    + exact Hb.
Qed.

(** *** Saving and showing the check boxes *)

Lemma is_checked_set_checked (c c' : option bool) :
  (is_Some c' <-> is_Some c) ->
  is_checked (set_checked (is_checked c) c') = is_checked c.
Proof.
  intros Hsame. destruct c as [x|], c' as [y|]; cbn; try reflexivity.
  destruct (proj2 Hsame (ex_intro _ x eq_refl)) as [? Hn]. discriminate Hn.
Qed.

Lemma same_boxes_refl (f : Form) : same_boxes f f.
Proof. unfold same_boxes. tauto. Qed.

Lemma same_boxes_trans (f g h : Form) :
  same_boxes f g -> same_boxes g h -> same_boxes f h.
Proof. unfold same_boxes. intros (?&?&?&?) (?&?&?&?). repeat split; tauto. Qed.

Lemma set_checked_is_Some (b : bool) (c : option bool) :
  is_Some (set_checked b c) <-> is_Some c.
Proof.
  destruct c; cbn; split; intros [? Hx]; try discriminate Hx; eauto.
Qed.

Lemma applyToForm_same_boxes (values : object) (f : Form) :
  page_keeps_boxes dom ->
  same_boxes (part_000.applyToForm values f) f /\
  same_boxes (script_js.applyToForm values f) f.
Proof.
  intros [Hreset Hradio].
  assert (Hclear : same_boxes (part_000.clearForm f) f).
  { apply (same_boxes_trans _ (form_reset f)); [|apply Hreset].
    unfold part_000.clearForm, same_boxes. cbn.
    rewrite !set_checked_is_Some. tauto. }
  assert (Hstep : forall name g,
            same_boxes g f ->
            same_boxes (match values !! name with
                        | Some v => if truthy (Some v)
                                    then check_radio name v g else g
                        | None => g
                        end) f).
  { intros name g Hg. destruct (values !! name) as [v|]; [|exact Hg].
    destruct (truthy (Some v)); [|exact Hg].
    apply (same_boxes_trans _ g); [apply Hradio|exact Hg]. }
  split.
  - unfold part_000.applyToForm. cbv zeta. repeat apply Hstep. exact Hclear.
  - unfold script_js.applyToForm, script_js.clearForm. cbv zeta.
    repeat apply Hstep. apply Hreset.
Qed.

(** X17. What is saved for an item comes back when the item is shown.
    On a page where resetting the form and checking a radio button
    neither remove nor add a check box, rendering right after an
    autosave leaves the check boxes of [part_000] (flag, too short,
    promotional, engagement) checked exactly as they were when the form
    was saved, and in [script.js] the flag; the rating store is not
    touched by the rendering. *)
Theorem render_restores_saved_check_boxes (now : string) (w : Env)
    (item : object) :
  page_keeps_boxes dom ->
  dataset_at (dataset w) (index w) = Some item ->
  (exists w1 w2,
     part_000.savePartialProgress now w = Normal w1 /\
     part_000.render w1 = Normal w2 /\
     state w2 = state w1 /\
     is_checked (flagCheckbox (form w2)) = is_checked (flagCheckbox (form w)) /\
     is_checked (tooShortCheckbox (form w2)) =
       is_checked (tooShortCheckbox (form w)) /\
     is_checked (promotionalCheckbox (form w2)) =
       is_checked (promotionalCheckbox (form w)) /\
     is_checked (engagementCheckbox (form w2)) =
       is_checked (engagementCheckbox (form w))) /\
  (exists w1 w2,
     script_js.savePartialProgress now w = Normal w1 /\
     script_js.render w1 = Normal w2 /\
     state w2 = state w1 /\
     is_checked (flagCheckbox (form w2)) = is_checked (flagCheckbox (form w))).
Proof.
  intros Hpage Hitem. split.
  - destruct (savePartialProgress_written now w item Hitem) as (t & p & Hs).
    eexists _, _. split; [exact Hs|].
    set (rec := part_000.partial_record now w item (getFormValues (form w))).
    set (w1 := set_progress t p
                 (saveState (set_rating (makeKey (index w) item) rec w))).
    assert (Hrender : part_000.render w1 =
              Normal (set_form
                {| form_category := form_category (part_000.applyToForm rec (form w));
                   form_valence := form_valence (part_000.applyToForm rec (form w));
                   form_subcategory :=
                     form_subcategory (part_000.applyToForm rec (form w));
                   flagCheckbox :=
                     set_checked (is_checked (flagCheckbox (form w)))
                       (flagCheckbox (part_000.applyToForm rec (form w)));
                   tooShortCheckbox :=
                     set_checked (is_checked (tooShortCheckbox (form w)))
                       (tooShortCheckbox (part_000.applyToForm rec (form w)));
                   promotionalCheckbox :=
                     set_checked (is_checked (promotionalCheckbox (form w)))
                       (promotionalCheckbox (part_000.applyToForm rec (form w)));
                   engagementCheckbox :=
                     set_checked (is_checked (engagementCheckbox (form w)))
                       (engagementCheckbox (part_000.applyToForm rec (form w))) |}
                w1)).
    { unfold part_000.render.
      change (dataset w1) with (dataset w). change (index w1) with (index w).
      rewrite (dataset_at_nonempty _ _ _ Hitem), Hitem.
      cbn [negb item_of mbind completion_bind].
      assert (Hsaved : ratingsById (state w1) !! makeKey (index w) item = Some rec)
        by apply lookup_insert_eq.
      rewrite Hsaved. cbn [default part_000.saved_flag].
      change (form w1) with (form w).
      assert (Hf : forall q c, rec !! q = Some (Bool (is_checked c)) ->
                     strict_eq_prim (rec !! q) (Bool true) = is_checked c).
      { intros q c ->. cbn. destruct (is_checked c); reflexivity. }
      rewrite (Hf "flagged" (flagCheckbox (form w))) by (vm_compute; reflexivity).
      rewrite (Hf "tooShort" (tooShortCheckbox (form w))) by (vm_compute; reflexivity).
      rewrite (Hf "promotional" (promotionalCheckbox (form w)))
        by (vm_compute; reflexivity).
      rewrite (Hf "engagement" (engagementCheckbox (form w)))
        by (vm_compute; reflexivity).
      reflexivity. }
    split; [exact Hrender|]. split; [reflexivity|].
    destruct (applyToForm_same_boxes rec (form w) Hpage) as [(H1 & H2 & H3 & H4) _].
    cbn [form set_form flagCheckbox tooShortCheckbox promotionalCheckbox
         engagementCheckbox].
    split; [apply is_checked_set_checked, H1|].
    split; [apply is_checked_set_checked, H2|].
    split; [apply is_checked_set_checked, H3|].
    apply is_checked_set_checked, H4.
  - destruct (legacy_savePartialProgress_written now w item Hitem) as (t & p & Hs).
    eexists _, _. split; [exact Hs|].
    set (rec := script_js.partial_record now w item (getFormValues (form w))).
    set (w1 := set_progress t p
                 (saveState (set_rating (makeKey (index w) item) rec w))).
    assert (Hrender : script_js.render w1 =
              Normal (set_form
                {| form_category := form_category (script_js.applyToForm rec (form w));
                   form_valence := form_valence (script_js.applyToForm rec (form w));
                   form_subcategory :=
                     form_subcategory (script_js.applyToForm rec (form w));
                   flagCheckbox :=
                     set_checked (is_checked (flagCheckbox (form w)))
                       (flagCheckbox (script_js.applyToForm rec (form w)));
                   tooShortCheckbox :=
                     tooShortCheckbox (script_js.applyToForm rec (form w));
                   promotionalCheckbox :=
                     promotionalCheckbox (script_js.applyToForm rec (form w));
                   engagementCheckbox :=
                     engagementCheckbox (script_js.applyToForm rec (form w)) |}
                w1)).
    { unfold script_js.render.
      change (dataset w1) with (dataset w). change (index w1) with (index w).
      rewrite (dataset_at_nonempty _ _ _ Hitem), Hitem.
      cbn [negb item_of mbind completion_bind].
      assert (Hsaved : ratingsById (state w1) !! makeKey (index w) item = Some rec)
        by apply lookup_insert_eq.
      rewrite Hsaved. cbn [default].
      change (form w1) with (form w).
      assert (Hf : rec !! "flagged" = Some (Bool (is_checked (flagCheckbox (form w)))))
        by (vm_compute; reflexivity).
      rewrite Hf. cbn [strict_eq_prim].
      destruct (is_checked (flagCheckbox (form w))); reflexivity. }
    split; [exact Hrender|]. split; [reflexivity|].
    destruct (applyToForm_same_boxes rec (form w) Hpage) as [_ (H1 & _)].
    cbn [form set_form flagCheckbox].
    apply is_checked_set_checked; assumption.
Qed.

(** X18. The clear button of [part_000] returns when an item is under
    the cursor and stores for it a record whose [tooShort],
    [promotional] and [engagement] are [false], whatever the form held;
    the record is then complete only by its fields, as [validate] of
    [script.js] judges the form after the reset. *)
Theorem clear_stores_unchecked_boxes (now : string) (w : Env) (item : object) :
  dataset_at (dataset w) (index w) = Some item ->
  exists w' rec,
    part_000.handle (part_000.clearBtn_click now) w = Normal w' /\
    ratingsById (state w') !! makeKey (index w) item = Some rec /\
    localStorage w' = Some (state w') /\
    rec !! "tooShort" = Some (Bool false) /\
    rec !! "promotional" = Some (Bool false) /\
    rec !! "engagement" = Some (Bool false) /\
    rec !! "isComplete" =
      Some (Bool (ok (script_js.validate (getFormValues (form_reset (form w)))))).
Proof.
  intros Hitem. cbn [part_000.handle].
  destruct (savePartialProgress_written now
              (set_form (part_000.clearForm (form w)) w) item Hitem)
    as (t & p & ->).
  eexists _, _. split; [reflexivity|].
  split; [apply lookup_insert_eq|]. split; [reflexivity|].
  assert (Hun : forall c, is_checked (set_checked false c) = false)
    by (intros [?|]; reflexivity).
  split; [|split; [|split]].
  - unfold part_000.partial_record.
    cbn [form set_form part_000.clearForm tooShortCheckbox promotionalCheckbox
         engagementCheckbox].
    rewrite !Hun. vm_compute; reflexivity.
  - unfold part_000.partial_record.
    cbn [form set_form part_000.clearForm tooShortCheckbox promotionalCheckbox
         engagementCheckbox].
    rewrite !Hun. vm_compute; reflexivity.
  - unfold part_000.partial_record.
    cbn [form set_form part_000.clearForm tooShortCheckbox promotionalCheckbox
         engagementCheckbox].
    rewrite !Hun. vm_compute; reflexivity.
  - rewrite partial_record_isComplete_validate.
    unfold part_000.validate.
    cbn [form set_form part_000.clearForm tooShortCheckbox].
    rewrite Hun. reflexivity.
Qed.

End more_facts.

(** ** Examples of the further facts *)

Section more_examples.
Import JS Common Spec Examples.
#[local] Existing Instance page.
#[local] Existing Instance known_texts.

Lemma one_record_isComplete_boolean (id : value) :
  isComplete_boolean (one_record id).
Proof.
  intros k r Hk. unfold one_record in Hk.
  apply lookup_singleton_Some in Hk as [_ <-].
  right. exists true. reflexivity.
Qed.

Lemma stored_session_invariant (f : Form) : invariant (stored_session f).
Proof.
  split; [|split].
  - right. unfold cursor_in_range. cbn. lia.
  - apply one_record_isComplete_boolean.
  - intros k r Hk.
    change (one_record Null !! k = Some r) in Hk.
    unfold one_record in Hk.
    apply lookup_singleton_Some in Hk as [_ <-]. reflexivity.
Qed.

Lemma at_first_cursor_ok (f : Form) : cursor_ok (at_first f).
Proof. right. unfold cursor_in_range. cbn. lia. Qed.

Lemma page_keeps_its_boxes : page_keeps_boxes page.
Proof.
  split; intros; unfold same_boxes; cbn; tauto.
Qed.

Lemma handlers_return_and_keep_invariant_witness :
  invariant (stored_session complete_form) /\
  storage_synced (stored_session complete_form) /\
  exists w',
    part_000.handle (part_000.nextBtn_click "T") (stored_session complete_form)
      = Normal w' /\
    invariant w' /\ storage_synced w'.
Proof.
  split; [apply stored_session_invariant|]. split; [reflexivity|].
  exact (handlers_return_and_keep_invariant (part_000.nextBtn_click "T")
           (stored_session complete_form)
           (stored_session_invariant complete_form) eq_refl).
Defined.

Lemma init_establishes_invariant_witness :
  declared reopened /\
  (forall parsed, localStorage reopened = Some parsed ->
                  isComplete_boolean (ratingsById parsed)) /\
  exists w',
    part_000.init reopened = Normal w' /\
    dataset w' = [] /\ index w' = 0%Z /\
    invariant w' /\ storage_synced w'.
Proof.
  assert (Hd : declared reopened) by (repeat split; reflexivity).
  assert (Hs : forall parsed, localStorage reopened = Some parsed ->
                 isComplete_boolean (ratingsById parsed)).
  { intros parsed Hp.
    change (Some {| ratingsById := one_record Null; raterId := "" |} = Some parsed)
      in Hp.
    injection Hp as <-. apply one_record_isComplete_boolean. }
  split; [exact Hd|]. split; [exact Hs|].
  exact (init_establishes_invariant reopened Hd Hs).
Defined.

Lemma reload_restores_state_witness :
  storage_synced (stored_session blank_form) /\
  localStorage reopened = localStorage (stored_session blank_form) /\
  carries_current (stored_session blank_form) /\
  (exists w', part_000.init reopened = Normal w' /\
              state w' = state (stored_session blank_form) /\
              localStorage w' = Some (state (stored_session blank_form)) /\
              dataset w' = [] /\ index w' = 0%Z) /\
  (exists w', script_js.init reopened = Normal w' /\
              state w' = state (stored_session blank_form) /\
              localStorage w' = Some (state (stored_session blank_form)) /\
              dataset w' = [] /\ index w' = 0%Z).
Proof.
  destruct (stored_session_invariant blank_form) as (_ & _ & Hc).
  destruct (reload_restores_state (stored_session blank_form) reopened
              eq_refl eq_refl) as [H1 H2].
  split; [reflexivity|]. split; [reflexivity|]. split; [exact Hc|].
  split; [exact (H1 Hc)|exact H2].
Defined.

Lemma go_only_moves_the_cursor_witness :
  cursor_ok (at_first blank_form) /\
  (exists w', part_000.go 1 (at_first blank_form) = Normal w' /\
              stepped 1 (at_first blank_form) w') /\
  (exists w', script_js.go 1 (at_first blank_form) = Normal w' /\
              stepped 1 (at_first blank_form) w').
Proof.
  split; [apply at_first_cursor_ok|].
  exact (go_only_moves_the_cursor 1 (at_first blank_form)
           (at_first_cursor_ok blank_form)).
Defined.

Lemma jump_lands_or_alerts_witness :
  cursor_ok (at_first blank_form) /\
  (1 <= 2 <= Z.of_nat (length (dataset (at_first blank_form))))%Z /\
  ~ (1 <= 0 <= Z.of_nat (length (dataset (at_first blank_form))))%Z /\
  (exists w', part_000.jumpBtn_click "T" (Some 2%Z) (at_first blank_form)
                = Normal (w', false) /\
              index w' = 1%Z) /\
  (exists w', script_js.jumpBtn_click "T" (Some 2%Z) (at_first blank_form)
                = Normal (w', false) /\
              index w' = 1%Z) /\
  part_000.jumpBtn_click "T" (Some 0%Z) (at_first blank_form)
    = Normal (at_first blank_form, true) /\
  script_js.jumpBtn_click "T" (Some 0%Z) (at_first blank_form)
    = Normal (at_first blank_form, true).
Proof.
  assert (Hin : (1 <= 2 <= Z.of_nat (length (dataset (at_first blank_form))))%Z)
    by (cbn; lia).
  assert (Hout : ~ (1 <= 0 <= Z.of_nat (length (dataset (at_first blank_form))))%Z)
    by (cbn; lia).
  destruct (jump_lands_or_alerts "T" 2 (at_first blank_form)
              (at_first_cursor_ok blank_form)) as (Hland & _ & _).
  destruct (jump_lands_or_alerts "T" 0 (at_first blank_form)
              (at_first_cursor_ok blank_form)) as (_ & Halert & _).
  destruct (Hland Hin) as (item & _ & (w1 & Hj1 & Hi1 & _) & (w2 & Hj2 & Hi2 & _)).
  destruct (Halert Hout) as [Ha1 Ha2].
  split; [apply at_first_cursor_ok|]. split; [exact Hin|]. split; [exact Hout|].
  split; [exists w1; split; [exact Hj1|exact Hi1]|].
  split; [exists w2; split; [exact Hj2|exact Hi2]|].
  split; [exact Ha1|exact Ha2].
Defined.

Lemma save_upserts_one_record_witness :
  dataset_at (dataset (at_first complete_form)) (index (at_first complete_form))
    = Some first_item /\
  ok (part_000.validate (form (at_first complete_form))
        (getFormValues (form (at_first complete_form)))) = true /\
  ok (script_js.validate (getFormValues (form (at_first complete_form)))) = true /\
  (exists w', part_000.savePartialProgress "T" (at_first complete_form)
                = Normal w' /\
              upserted (makeKey (index (at_first complete_form)) first_item)
                (part_000.partial_record "T" (at_first complete_form) first_item
                   (getFormValues (form (at_first complete_form))))
                (at_first complete_form) w') /\
  (exists w', script_js.savePartialProgress "T" (at_first complete_form)
                = Normal w' /\
              upserted (makeKey (index (at_first complete_form)) first_item)
                (script_js.partial_record "T" (at_first complete_form) first_item
                   (getFormValues (form (at_first complete_form))))
                (at_first complete_form) w') /\
  (exists w', part_000.saveCurrent "T" (at_first complete_form)
                = Normal (w', {| ok := true; message := None |}) /\
              upserted (makeKey (index (at_first complete_form)) first_item)
                (part_000.strict_record "T" (at_first complete_form) first_item
                   (getFormValues (form (at_first complete_form))))
                (at_first complete_form) w') /\
  (exists w', script_js.saveCurrent "T" (at_first complete_form)
                = Normal (w', {| ok := true; message := None |}) /\
              upserted (makeKey (index (at_first complete_form)) first_item)
                (script_js.strict_record "T" (at_first complete_form) first_item
                   (getFormValues (form (at_first complete_form))))
                (at_first complete_form) w').
Proof.
  destruct (save_upserts_one_record "T" (at_first complete_form) first_item
              eq_refl) as (H1 & H2 & H3 & H4).
  split; [reflexivity|]. split; [reflexivity|]. split; [reflexivity|].
  split; [exact H1|]. split; [exact H2|].
  split; [exact (H3 eq_refl)|exact (H4 eq_refl)].
Defined.

Lemma autosave_complete_iff_strict_accepts_witness :
  dataset_at (dataset (at_first no_subcategory_form))
             (index (at_first no_subcategory_form)) = Some first_item /\
  ok (part_000.validate (form (at_first no_subcategory_form))
        (getFormValues (form (at_first no_subcategory_form)))) = false /\
  part_000.partial_record "T" (at_first no_subcategory_form) first_item
      (getFormValues (form (at_first no_subcategory_form))) !! "isComplete"
    = Some (Bool false) /\
  (exists w', part_000.savePartialProgress "T" (at_first no_subcategory_form)
                = Normal w' /\
              counted w' first_item = false) /\
  script_js.partial_record "T" (at_first no_subcategory_form) first_item
      (getFormValues (form (at_first no_subcategory_form))) !! "isComplete"
    = Some (Bool false) /\
  (exists w', script_js.savePartialProgress "T" (at_first no_subcategory_form)
                = Normal w' /\
              counted w' first_item = false).
Proof.
  destruct (autosave_complete_iff_strict_accepts "T"
              (at_first no_subcategory_form) first_item eq_refl)
    as ((H1 & w1 & Hs1 & Hc1) & (H2 & w2 & Hs2 & Hc2)).
  split; [reflexivity|]. split; [reflexivity|].
  split; [exact H1|]. split; [exists w1; split; [exact Hs1|exact Hc1]|].
  split; [exact H2|]. exists w2; split; [exact Hs2|exact Hc2].
Defined.

Lemma strict_record_is_partial_record_without_isComplete_witness :
  ok (part_000.validate (form (at_first complete_form))
        (getFormValues complete_form)) = true /\
  ok (script_js.validate (getFormValues complete_form)) = true /\
  part_000.partial_record "T" (at_first complete_form) first_item
      (getFormValues complete_form) =
    <["isComplete" := Bool true]>
      (part_000.strict_record "T" (at_first complete_form) first_item
         (getFormValues complete_form)) /\
  script_js.partial_record "T" (at_first complete_form) first_item
      (getFormValues complete_form) =
    <["isComplete" := Bool true]>
      (<["flagged" := Bool (is_checked (flagCheckbox (form (at_first complete_form))))]>
         (script_js.strict_record "T" (at_first complete_form) first_item
            (getFormValues complete_form))).
Proof.
  destruct (strict_record_is_partial_record_without_isComplete "T"
              (at_first complete_form) first_item (getFormValues complete_form))
    as [H1 H2].
  split; [reflexivity|]. split; [reflexivity|].
  split; [exact (H1 eq_refl)|exact (H2 eq_refl)].
Defined.

Lemma progress_bounded_and_cursor_free_witness :
  ratingsById (state (at_first blank_form)) = ∅ /\
  (forall item, item ∈ dataset (at_first blank_form) -> has_id item) /\
  exists p,
    progress (at_first blank_form) = Normal p /\
    done p <= total p /\ done p = 0 /\
    forall j, progress (set_index j (at_first blank_form)) = Normal p.
Proof.
  assert (Hid : forall item, item ∈ dataset (at_first blank_form) -> has_id item).
  { intros item Hin.
    change (item ∈ [first_item; second_item]) in Hin.
    apply elem_of_cons in Hin as [-> | Hin];
      [eexists; split; [reflexivity|discriminate]|].
    apply elem_of_cons in Hin as [-> | Hin];
      [eexists; split; [reflexivity|discriminate]|].
    inversion Hin. }
  destruct (progress_bounded_and_cursor_free (at_first blank_form))
    as (p & Hp & Hle & Hzero & Hfree).
  split; [reflexivity|]. split; [exact Hid|].
  exists p. split; [exact Hp|]. split; [exact Hle|].
  split; [exact (Hzero eq_refl)|exact (Hfree Hid)].
Defined.

Lemma load_replaces_dataset_or_alerts_witness :
  Builtins.JSON_parse (Builtins.replace_NaN "[NaN]") = Some (Arr [Null]) /\
  (forall items,
     Builtins.JSON_parse (Builtins.replace_NaN "{}") <> Some (Arr items)) /\
  (exists w', part_000.load_text "[NaN]" (fresh blank_form) = Normal (w', false) /\
              loaded_from [Null] (fresh blank_form) w') /\
  (exists w', script_js.load_text "[NaN]" (fresh blank_form) = Normal (w', false) /\
              loaded_from [Null] (fresh blank_form) w') /\
  part_000.load_text "{}" (fresh blank_form) = Normal (fresh blank_form, true) /\
  script_js.load_text "{}" (fresh blank_form) = Normal (fresh blank_form, true).
Proof.
  assert (Hno : forall items,
            Builtins.JSON_parse (Builtins.replace_NaN "{}") <> Some (Arr items)).
  { intros items Hp. discriminate Hp. }
  destruct (load_replaces_dataset_or_alerts "[NaN]" (fresh blank_form))
    as [Hload _].
  destruct (load_replaces_dataset_or_alerts "{}" (fresh blank_form))
    as [_ Halert].
  destruct (Hload [Null] eq_refl) as [H1 H2].
  destruct (Halert Hno) as [H3 H4].
  split; [reflexivity|]. split; [exact Hno|].
  split; [exact H1|]. split; [exact H2|]. split; [exact H3|exact H4].
Defined.

Lemma export_of_stamped_store_is_plain_witness :
  carries_current (stored_session blank_form) /\
  ratings (part_000.exportJson "2026-01-05T10:00:00+11:00"
             (stored_session blank_form)) =
    Object_values (ratingsById (state (stored_session blank_form))) /\
  ratings (part_000.exportJson "2026-01-05T10:00:00+11:00"
             (stored_session blank_form)) =
    ratings (script_js.exportJson "2026-01-04T23:00:00.000Z"
               (stored_session blank_form)) /\
  payload_raterId (part_000.exportJson "2026-01-05T10:00:00+11:00"
                     (stored_session blank_form)) =
    payload_raterId (script_js.exportJson "2026-01-04T23:00:00.000Z"
                       (stored_session blank_form)) /\
  datasetSize (part_000.exportJson "2026-01-05T10:00:00+11:00"
                 (stored_session blank_form)) =
    datasetSize (script_js.exportJson "2026-01-04T23:00:00.000Z"
                   (stored_session blank_form)).
Proof.
  destruct (stored_session_invariant blank_form) as (_ & _ & Hc).
  destruct (export_of_stamped_store_is_plain "2026-01-05T10:00:00+11:00"
              "2026-01-04T23:00:00.000Z" (stored_session blank_form) Hc)
    as (H1 & H2 & H3 & H4 & _).
  split; [exact Hc|]. split; [exact H1|]. split; [exact H2|].
  split; [exact H3|exact H4].
Defined.

Lemma keys_separate_bar_free_ids_witness :
  bar_free (key_id 0 first_item) = true /\
  bar_free (key_id 1 second_item) = true /\
  safe_integer 1 /\ safe_integer 2 /\
  first_item !! "id" = Some (Num 1) /\
  second_item !! "id" = Some (Num 2) /\
  (makeKey 0 first_item = makeKey 1 second_item <->
   key_id 0 first_item = key_id 1 second_item /\
   key_uid first_item = key_uid second_item) /\
  (makeKey 0 first_item = makeKey 1 second_item <->
   1%Z = 2%Z /\ key_uid first_item = key_uid second_item).
Proof.
  assert (S1 : safe_integer 1) by (split; reflexivity).
  assert (S2 : safe_integer 2) by (split; reflexivity).
  destruct (keys_separate_bar_free_ids 0 1 first_item second_item) as [H1 H2].
  split; [reflexivity|]. split; [reflexivity|].
  split; [exact S1|]. split; [exact S2|].
  split; [reflexivity|]. split; [reflexivity|].
  split; [exact (H1 eq_refl eq_refl)|exact (H2 1%Z 2%Z S1 S2 eq_refl eq_refl)].
Defined.

Lemma blended_colour_between_base_and_pink_witness :
  (0 <= 50 <= 100)%Z /\ (50 < 100)%Z /\
  (exists r g b,
     channels 50 = [Some r; Some g; Some b] /\
     (15 <= r <= 171)%Z /\ (0 <= g <= 18)%Z /\ (22 <= b <= 120)%Z) /\
  blend_step 50 = true.
Proof.
  assert (Hp : (0 <= 50 <= 100)%Z) by lia.
  assert (Hlt : (50 < 100)%Z) by lia.
  destruct (blended_colour_between_base_and_pink 50 Hp) as (H1 & _ & _ & H2).
  split; [exact Hp|]. split; [exact Hlt|].
  split; [exact H1|exact (H2 Hlt)].
Defined.

Lemma NaN_rewrite_is_idempotent_and_local_witness :
  without_N "[1,2]" = true /\
  ends_without_word "[" = true /\
  Builtins.no_word_ahead "]" = true /\
  Builtins.replace_NaN "[1,2]" = "[1,2]" /\
  Builtins.replace_NaN ("[" +:+ "NaN" +:+ "]") =
    Builtins.replace_NaN "[" +:+ "null" +:+ Builtins.replace_NaN_from true "]".
Proof.
  destruct (NaN_rewrite_is_idempotent_and_local "[1,2]" "[" "]")
    as (_ & H1 & _ & H2).
  split; [reflexivity|]. split; [reflexivity|]. split; [reflexivity|].
  split; [exact (H1 eq_refl)|exact (H2 eq_refl eq_refl)].
Defined.

Lemma legacy_handlers_return_and_keep_invariant_witness :
  legacy_invariant (stored_session complete_form) /\
  (forall parsed, localStorage reopened = Some parsed ->
                  isComplete_boolean (ratingsById parsed)) /\
  isComplete_boolean (ratingsById (state reopened)) /\
  (exists w', script_js.handle (script_js.nextBtn_click "T")
                (stored_session complete_form) = Normal w' /\
              legacy_invariant w') /\
  (exists w', script_js.init reopened = Normal w' /\ legacy_invariant w' /\
              dataset w' = [] /\ index w' = 0%Z).
Proof.
  assert (Hinv : legacy_invariant (stored_session complete_form)).
  { destruct (stored_session_invariant complete_form) as (Hc & Hb & _).
    split; assumption. }
  assert (Hs : forall parsed, localStorage reopened = Some parsed ->
                 isComplete_boolean (ratingsById parsed)).
  { intros parsed Hp.
    change (Some {| ratingsById := one_record Null; raterId := "" |} = Some parsed)
      in Hp.
    injection Hp as <-. apply one_record_isComplete_boolean. }
  assert (Hb : isComplete_boolean (ratingsById (state reopened))).
  { intros k r Hk. change ((∅ : gmap string object) !! k = Some r) in Hk.
    rewrite lookup_empty in Hk. discriminate Hk. }
  destruct (legacy_handlers_return_and_keep_invariant
              (script_js.nextBtn_click "T") (stored_session complete_form))
    as [H1 _].
  destruct (legacy_handlers_return_and_keep_invariant
              (script_js.nextBtn_click "T") reopened) as [_ H2].
  split; [exact Hinv|]. split; [exact Hs|]. split; [exact Hb|].
  split; [exact (H1 Hinv)|exact (H2 Hs Hb)].
Defined.

Lemma render_restores_saved_check_boxes_witness :
  page_keeps_boxes page /\
  dataset_at (dataset (at_first too_short_form)) (index (at_first too_short_form))
    = Some first_item /\
  (exists w1 w2,
     part_000.savePartialProgress "T" (at_first too_short_form) = Normal w1 /\
     part_000.render w1 = Normal w2 /\
     is_checked (tooShortCheckbox (form w2)) = true) /\
  (exists w1 w2,
     script_js.savePartialProgress "T" (at_first too_short_form) = Normal w1 /\
     script_js.render w1 = Normal w2 /\
     is_checked (flagCheckbox (form w2)) = false).
Proof.
  destruct (render_restores_saved_check_boxes "T" (at_first too_short_form)
              first_item page_keeps_its_boxes eq_refl)
    as ((w1 & w2 & Hs & Hr & _ & _ & Ht & _) & (v1 & v2 & Hs' & Hr' & _ & Hf)).
  split; [exact page_keeps_its_boxes|]. split; [reflexivity|].
  split.
  - exists w1, w2. split; [exact Hs|]. split; [exact Hr|exact Ht].
  - exists v1, v2. split; [exact Hs'|]. split; [exact Hr'|exact Hf].
Defined.

Lemma clear_stores_unchecked_boxes_witness :
  dataset_at (dataset (at_first too_short_form)) (index (at_first too_short_form))
    = Some first_item /\
  exists w' rec,
    part_000.handle (part_000.clearBtn_click "T") (at_first too_short_form)
      = Normal w' /\
    ratingsById (state w') !! makeKey (index (at_first too_short_form)) first_item
      = Some rec /\
    localStorage w' = Some (state w') /\
    rec !! "tooShort" = Some (Bool false) /\
    rec !! "promotional" = Some (Bool false) /\
    rec !! "engagement" = Some (Bool false) /\
    rec !! "isComplete" =
      Some (Bool (ok (script_js.validate
                        (getFormValues (form_reset (form (at_first too_short_form))))))).
Proof.
  split; [reflexivity|].
  exact (clear_stores_unchecked_boxes "T" (at_first too_short_form) first_item
           eq_refl).
Defined.

End more_examples.
